(** * CaffiAIne: festival aggregation, validity filtering and criteria matching

    A shallow embedding of the core of the Montreal festival assistant:
    - [festival_service.py]: [get_ongoing_festivals], [_get_fallback_festivals];
    - [api_integrations.py]: [_categorize_event], [_is_valid_festival] and
      the filtering loop of [get_live_festivals];
    - [main.py]: [_parse_user_input], [_parse_datetime], [_get_next_weekday],
      [_is_festival_at_time], [get_festivals_by_criteria];
    - [memory.py]: the store and recall operations of [MemoryManager];
    - [planner.py]: [_create_structured_tasks], [prioritize_tasks],
      [validate_task_dependencies];
    - [ui_helper.py]: the menus of the guided search;
    - [live_festival_scraper.py]: [_is_cultural_event].

    Python values are embedded as follows.  A [str] is a [string] whose
    characters stand for code points below 256; a festival
    ([Dict[str, Any]]) is a [gmap string value]; code that may raise lives
    in the [result] monad, and every [try]/[except] of the source is a
    [match] on a [result]. *)

From Stdlib Require Import ZArith List Ascii String Bool Lia Sorted Permutation.
From stdpp Require Import base option strings gmap.

Local Open Scope string_scope.
Local Open Scope Z_scope.

(** ** Python values, exceptions and the error monad *)

Module Py.

(** The values a festival dictionary can hold (JSON payloads). *)
#[warnings="-register-all"]
Inductive value : Type :=
  | VNone
  | VInt (z : Z)
  | VStr (s : string)
  | VList (l : list value).

(** The exception classes the embedded code can raise. *)
Inductive exn : Type :=
  | KeyError | TypeError | ValueError | AttributeError | OverflowError
  | OtherError.

Inductive result (A : Type) : Type :=
  | Ok (a : A)
  | Raise (e : exn).
Arguments Ok {A} a.
Arguments Raise {A} e.

#[export] Instance result_ret : MRet result := fun A a => Ok a.
#[export] Instance result_bind : MBind result := fun A B f m =>
  match m with Ok a => f a | Raise e => Raise e end.

(** [try: m except: d] for a body whose every exception is caught. *)
Definition try_except {A} (m : result A) (d : A) : A :=
  match m with Ok a => a | Raise _ => d end.

Abbreviation dict := (gmap string value).

(** [d[k]] *)
Definition getitem (d : dict) (k : string) : result value :=
  match d !! k with Some v => Ok v | None => Raise KeyError end.

(** [d.get(k, default)] *)
Definition dict_get (d : dict) (k : string) (default : value) : value :=
  match d !! k with Some v => v | None => default end.

(** [k in d] *)
Definition contains_key (d : dict) (k : string) : bool :=
  match d !! k with Some _ => true | None => false end.

(** [len(v)] *)
Definition len (v : value) : result Z :=
  match v with
  | VStr s => Ok (Z.of_nat (String.length s))
  | VList l => Ok (Z.of_nat (List.length l))
  | VNone | VInt _ => Raise TypeError
  end.

(** Receiver of a [str] method call: anything else has no such attribute. *)
Definition as_str (v : value) : result string :=
  match v with VStr s => Ok s | _ => Raise AttributeError end.

End Py.
Export Py.

(** ** [str] methods *)

Module Str.

Definition code (c : ascii) : Z := Z.of_N (N_of_ascii c).

Definition in_range (lo hi : Z) (c : ascii) : bool :=
  (lo <=? code c) && (code c <=? hi).

(** [c.lower()] on one code point below 256: A-Z and the Latin-1 capitals
    (U+00C0 to U+00DE, the multiplication sign U+00D7 apart) move by 32. *)
Definition lower_char (c : ascii) : ascii :=
  if in_range 65 90 c || (in_range 192 222 c && negb (code c =? 215))
  then ascii_of_N (N_of_ascii c + 32)
  else c.

(** [s.lower()] *)
Fixpoint lower (s : string) : string :=
  match s with
  | EmptyString => EmptyString
  | String c s' => String (lower_char c) (lower s')
  end.

(** [s.startswith(p)] *)
Fixpoint startswith (p s : string) : bool :=
  match p, s with
  | EmptyString, _ => true
  | String _ _, EmptyString => false
  | String a p', String b s' => Ascii.eqb a b && startswith p' s'
  end.

(** [needle in hay] on strings: substring test. *)
Fixpoint is_in (needle hay : string) : bool :=
  startswith needle hay ||
  match hay with
  | EmptyString => false
  | String _ hay' => is_in needle hay'
  end.

(** [word in keywords] on a list of strings: membership by equality. *)
Definition in_list (word : string) (keywords : list string) : bool :=
  existsb (String.eqb word) keywords.

(** [any(word in text for word in keywords)] *)
Definition any_in (keywords : list string) (text : string) : bool :=
  existsb (fun word => is_in word text) keywords.

(** [c.isspace()] for a code point below 256. *)
Definition isspace (c : ascii) : bool :=
  in_range 9 13 c || in_range 28 32 c || (code c =? 133) || (code c =? 160).

(** [s.split()]: the maximal runs of non-whitespace, in order.  [word] is
    the run being read. *)
Fixpoint split_from (word s : string) : list string :=
  match s with
  | EmptyString => if String.eqb word "" then [] else [word]
  | String c s' =>
      if isspace c
      then (if String.eqb word "" then split_from "" s'
            else word :: split_from "" s')
      else split_from (String.append word (String c "")) s'
  end.

Definition split (s : string) : list string := split_from "" s.

(** [s.replace(old, new)] for a one-character [old]. *)
Fixpoint replace (old : ascii) (new s : string) : string :=
  match s with
  | EmptyString => EmptyString
  | String c s' =>
      if Ascii.eqb c old then String.append new (replace old new s')
      else String c (replace old new s')
  end.

(** [s[n:]] *)
Fixpoint slice_from (n : nat) (s : string) : string :=
  match n, s with
  | O, _ => s
  | S _, EmptyString => EmptyString
  | S n', String _ s' => slice_from n' s'
  end.

(** [s[:n]] *)
Definition slice_to (n : nat) (s : string) : string := substring 0 n s.

(** [s.find(c)] for a one-character [c], as the pair of [s[:i]] and
    [s[i+1:]] when [c] first occurs at index [i]; [None] for [-1]. *)
Fixpoint find_char (c : ascii) (s : string) : option (string * string) :=
  match s with
  | EmptyString => None
  | String a s' =>
      if Ascii.eqb a c then Some (EmptyString, s')
      else match find_char c s' with
           | Some (before, after) => Some (String a before, after)
           | None => None
           end
  end.

(** Value of a decimal digit 0-9. *)
Definition digit_val (c : ascii) : option Z :=
  if in_range 48 57 c then Some (code c - 48) else None.

(** [int(s)] for a field of decimal digits; a field with any other
    character, or an empty one, is a [ValueError]. *)
Fixpoint int_from (acc : Z) (s : string) : result Z :=
  match s with
  | EmptyString => Ok acc
  | String c s' =>
      match digit_val c with
      | Some d => int_from (10 * acc + d) s'
      | None => Raise ValueError
      end
  end.

Definition int (s : string) : result Z :=
  match s with
  | EmptyString => Raise ValueError
  | _ => int_from 0 s
  end.

End Str.

(** ** [datetime]: dates, times, time zones *)

Module DateTime.

Definition US_PER_SECOND : Z := 1000000.
Definition US_PER_MINUTE : Z := 60 * US_PER_SECOND.
Definition US_PER_HOUR : Z := 60 * US_PER_MINUTE.
Definition US_PER_DAY : Z := 24 * US_PER_HOUR.

Definition MINYEAR : Z := 1.
Definition MAXYEAR : Z := 9999.

Definition is_leap (year : Z) : bool :=
  (year mod 4 =? 0) && (negb (year mod 100 =? 0) || (year mod 400 =? 0)).

Definition days_before_year (year : Z) : Z :=
  let y := year - 1 in y * 365 + y / 4 - y / 100 + y / 400.

Definition days_in_month (year month : Z) : Z :=
  if month =? 2 then (if is_leap year then 29 else 28)
  else if (month =? 4) || (month =? 6) || (month =? 9) || (month =? 11)
  then 30 else 31.

Definition days_before_month (year month : Z) : Z :=
  nth (Z.to_nat month)
      [0; 0; 31; 59; 90; 120; 151; 181; 212; 243; 273; 304; 334] 0
  + (if (2 <? month) && is_leap year then 1 else 0).

(** Proleptic Gregorian ordinal: 0001-01-01 is day 1. *)
Definition ymd2ord (year month day : Z) : Z :=
  days_before_year year + days_before_month year month + day.

(** [date.max.toordinal()], the ordinal of 9999-12-31. *)
Definition MAXORDINAL : Z := 3652059.

(** A [date] is its ordinal, a [time] its microsecond of the day. *)
Definition date : Type := Z.
Definition time : Type := Z.

(** A [datetime] is the wall-clock reading, in microseconds counted from
    the midnight that starts ordinal day 0, with the UTC offset of its
    [tzinfo] in microseconds; [None] is a naive datetime. *)
Record datetime : Type := mk_datetime {
  wall : Z;
  tzinfo : option Z
}.

Definition MINWALL : Z := US_PER_DAY.
Definition MAXWALL : Z := MAXORDINAL * US_PER_DAY + US_PER_DAY - 1.

(** The values the [datetime] type can hold. *)
Definition representable (dt : datetime) : Prop :=
  MINWALL <= wall dt <= MAXWALL.

(** [dt.date()], [dt.time()], [dt.hour] *)
Definition date_of (dt : datetime) : date := wall dt / US_PER_DAY.
Definition time_of (dt : datetime) : time := wall dt mod US_PER_DAY.
Definition hour (dt : datetime) : Z := time_of dt / US_PER_HOUR.

(** [d.weekday()]: Monday is 0, Sunday is 6. *)
Definition weekday (d : date) : Z := (d + 6) mod 7.

(** [datetime.combine(d, t)] *)
Definition combine (d : date) (t : time) : datetime :=
  mk_datetime (d * US_PER_DAY + t) None.

(** [time(hh, mm, ss, us)] *)
Definition time_new (hh mm ss us : Z) : result time :=
  if (0 <=? hh) && (hh <=? 23) && (0 <=? mm) && (mm <=? 59) &&
     (0 <=? ss) && (ss <=? 59) && (0 <=? us) && (us <=? 999999)
  then Ok (hh * US_PER_HOUR + mm * US_PER_MINUTE + ss * US_PER_SECOND + us)
  else Raise ValueError.

(** [date(year, month, day)] *)
Definition date_new (year month day : Z) : result date :=
  if (MINYEAR <=? year) && (year <=? MAXYEAR) &&
     (1 <=? month) && (month <=? 12) &&
     (1 <=? day) && (day <=? days_in_month year month)
  then Ok (ymd2ord year month day)
  else Raise ValueError.

(** [datetime(year, month, day, hh, mm, ss, us, tzinfo)] *)
Definition datetime_new (year month day hh mm ss us : Z) (tz : option Z)
  : result datetime :=
  d ← date_new year month day;
  t ← time_new hh mm ss us;
  mret (mk_datetime (d * US_PER_DAY + t) tz).

(** [timedelta(days=n)] in microseconds. *)
Definition timedelta_days (n : Z) : Z := n * US_PER_DAY.

(** [dt + delta]; a result outside the range of the type is an
    [OverflowError]. *)
Definition dt_add (dt : datetime) (delta : Z) : result datetime :=
  let w := wall dt + delta in
  if (MINWALL <=? w) && (w <=? MAXWALL)
  then Ok (mk_datetime w (tzinfo dt))
  else Raise OverflowError.

Definition dt_sub (dt : datetime) (delta : Z) : result datetime :=
  dt_add dt (- delta).

(** [d + timedelta(days=n)] on a [date]. *)
Definition date_add_days (d : date) (n : Z) : result date :=
  let o := d + n in
  if (1 <=? o) && (o <=? MAXORDINAL) then Ok o else Raise OverflowError.

(** [a <= b]: naive datetimes compare by their wall clock, aware ones by
    their instant; a naive and an aware one do not compare. *)
Definition dt_le (a b : datetime) : result bool :=
  match tzinfo a, tzinfo b with
  | None, None => Ok (wall a <=? wall b)
  | Some oa, Some ob => Ok (wall a - oa <=? wall b - ob)
  | _, _ => Raise TypeError
  end.

(** *** [datetime.fromisoformat]

    The grammar of Python 3.7 to 3.10,
    [YYYY-MM-DD[*HH[:MM[:SS[.fff[fff]]]][+HH:MM[:SS[.ffffff]]]]], read the
    way the library's [_parse_isoformat_date], [_parse_hh_mm_ss_ff] and
    [_parse_isoformat_time] read it; number fields are decimal digits. *)

Definition parse_isoformat_date (dstr : string) : result (Z * Z * Z) :=
  year ← Str.int (Str.slice_to 4 dstr);
  if negb (String.eqb (substring 4 1 dstr) "-") then Raise ValueError else
  month ← Str.int (substring 5 2 dstr);
  if negb (String.eqb (substring 7 1 dstr) "-") then Raise ValueError else
  day ← Str.int (substring 8 2 dstr);
  if negb (Nat.eqb (String.length dstr) 10) then Raise ValueError else
  mret (year, month, day).

(** One two-digit field at the head of [t], with what follows it. *)
Definition two_digits (t : string) : result (Z * string) :=
  match t with
  | String a (String b rest) =>
      v ← Str.int (String a (String b EmptyString));
      mret (v, rest)
  | _ => Raise ValueError
  end.

(** The fraction after the seconds: [.fff] or [.ffffff], or nothing. *)
Definition parse_fraction (t : string) : result Z :=
  match t with
  | EmptyString => Ok 0
  | String c frac =>
      if negb (Ascii.eqb c ".") then Raise ValueError
      else if Nat.eqb (String.length frac) 3
      then (v ← Str.int frac; mret (v * 1000))
      else if Nat.eqb (String.length frac) 6
      then Str.int frac
      else Raise ValueError
  end.

(** After a field: the end of the string, or a colon and the rest. *)
Definition after_colon (t : string) : result (option string) :=
  match t with
  | EmptyString => Ok None
  | String c rest =>
      if Ascii.eqb c ":" then Ok (Some rest) else Raise ValueError
  end.

Definition parse_hh_mm_ss_ff (tstr : string) : result (Z * Z * Z * Z) :=
  '(hh, r1) ← two_digits tstr;
  n1 ← after_colon r1;
  match n1 with
  | None => mret (hh, 0, 0, 0)
  | Some t2 =>
      '(mm, r2) ← two_digits t2;
      n2 ← after_colon r2;
      match n2 with
      | None => mret (hh, mm, 0, 0)
      | Some t3 =>
          '(ss, r3) ← two_digits t3;
          us ← parse_fraction r3;
          mret (hh, mm, ss, us)
      end
  end.

(** The position of the offset sign: the first [-], or else the first [+];
    the result holds the time before the sign, the sign and the offset
    after it. *)
Definition find_tz (tstr : string) : option (string * Z * string) :=
  match Str.find_char "-" tstr with
  | Some (timestr, tzstr) => Some (timestr, -1, tzstr)
  | None =>
      match Str.find_char "+" tstr with
      | Some (timestr, tzstr) => Some (timestr, 1, tzstr)
      | None => None
      end
  end.

(** [timezone(offset)]: the offset lies strictly within a day. *)
Definition timezone (offset : Z) : result Z :=
  if (- US_PER_DAY <? offset) && (offset <? US_PER_DAY)
  then Ok offset else Raise ValueError.

Definition parse_isoformat_time (tstr : string)
  : result (Z * Z * Z * Z * option Z) :=
  if (String.length tstr <? 2)%nat then Raise ValueError else
  match find_tz tstr with
  | None =>
      time_comps ← parse_hh_mm_ss_ff tstr;
      mret (time_comps, None)
  | Some (timestr, tzsign, tzstr) =>
      time_comps ← parse_hh_mm_ss_ff timestr;
      let n := String.length tzstr in
      if negb (Nat.eqb n 5 || Nat.eqb n 8 || Nat.eqb n 15)
      then Raise ValueError else
      '(h, m, s, us) ← parse_hh_mm_ss_ff tzstr;
      if (h =? 0) && (m =? 0) && (s =? 0) && (us =? 0)
      then mret (time_comps, Some 0)
      else
        tzi ← timezone (tzsign * (h * US_PER_HOUR + m * US_PER_MINUTE
                                  + s * US_PER_SECOND + us));
        mret (time_comps, Some tzi)
  end.

Definition fromisoformat (date_string : string) : result datetime :=
  let dstr := Str.slice_to 10 date_string in
  let tstr := Str.slice_from 11 date_string in
  '(year, month, day) ← parse_isoformat_date dstr;
  '(hh, mm, ss, us, tz) ←
     (if String.eqb tstr "" then mret (0, 0, 0, 0, None)
      else parse_isoformat_time tstr);
  datetime_new year month day hh mm ss us tz.

(** *** [datetime.strptime]

    The two formats the code uses.  A directive matches the first
    alternative of its pattern that fits, as the regular expression of
    [_strptime] does, and the whole string must be consumed. *)

Definition is_digit (c : ascii) : bool := Str.in_range 48 57 c.
Definition digit (c : ascii) : Z := Str.code c - 48.

(** [%Y]: four digits. *)
Definition match_Y (s : string) : option (Z * string) :=
  match s with
  | String a (String b (String c (String d rest))) =>
      if is_digit a && is_digit b && is_digit c && is_digit d
      then Some (1000 * digit a + 100 * digit b + 10 * digit c + digit d, rest)
      else None
  | _ => None
  end.

(** One digit of [lo..hi], then one more of [lo2..hi2]. *)
Definition match_pair (lo hi lo2 hi2 : Z) (s : string) : option (Z * string) :=
  match s with
  | String a (String b rest) =>
      if Str.in_range (48 + lo) (48 + hi) a && Str.in_range (48 + lo2) (48 + hi2) b
      then Some (10 * digit a + digit b, rest) else None
  | _ => None
  end.

(** A single digit of [lo..9]. *)
Definition match_one (lo : Z) (s : string) : option (Z * string) :=
  match s with
  | String a rest =>
      if Str.in_range (48 + lo) 57 a then Some (digit a, rest) else None
  | EmptyString => None
  end.

(** The first alternative that matches. *)
Fixpoint first_alt (alts : list (string -> option (Z * string))) (s : string)
  : option (Z * string) :=
  match alts with
  | [] => None
  | alt :: alts' =>
      match alt s with
      | Some r => Some r
      | None => first_alt alts' s
      end
  end.

(** [%m]: [1[0-2]|0[1-9]|[1-9]] *)
Definition match_m : string -> option (Z * string) :=
  first_alt [match_pair 1 1 0 2; match_pair 0 0 1 9; match_one 1].

(** [%d]: [3[0-1]|[1-2]\d|0[1-9]|[1-9]| [1-9]] *)
Definition match_d : string -> option (Z * string) :=
  first_alt [match_pair 3 3 0 1; match_pair 1 2 0 9; match_pair 0 0 1 9;
             match_one 1;
             fun s => match s with
                      | String c rest =>
                          if Ascii.eqb c " " then match_one 1 rest else None
                      | EmptyString => None
                      end].

(** [%H]: [2[0-3]|[0-1]\d|\d] *)
Definition match_H : string -> option (Z * string) :=
  first_alt [match_pair 2 2 0 3; match_pair 0 1 0 9; match_one 0].

(** [%M]: [[0-5]\d|\d] *)
Definition match_M : string -> option (Z * string) :=
  first_alt [match_pair 0 5 0 9; match_one 0].

(** A literal character of the format. *)
Definition match_lit (c : ascii) (s : string) : option string :=
  match s with
  | String a rest => if Ascii.eqb a c then Some rest else None
  | EmptyString => None
  end.

(** [datetime.strptime(s, "%Y-%m-%d")] *)
Definition strptime_Ymd (s : string) : result datetime :=
  match (('(y, r1) ← match_Y s; r2 ← match_lit "-" r1;
          '(m, r3) ← match_m r2; r4 ← match_lit "-" r3;
          '(d, r5) ← match_d r4;
          if String.eqb r5 "" then Some (y, m, d) else None)
         : option (Z * Z * Z)) with
  | Some (y, m, d) => datetime_new y m d 0 0 0 0 None
  | None => Raise ValueError
  end.

(** [datetime.strptime(s, "%H:%M")]; the date defaults to 1900-01-01. *)
Definition strptime_HM (s : string) : result datetime :=
  match (('(h, r1) ← match_H s; r2 ← match_lit ":" r1;
          '(m, r3) ← match_M r2;
          if String.eqb r3 "" then Some (h, m) else None)
         : option (Z * Z)) with
  | Some (h, m) => datetime_new 1900 1 1 h m 0 0 None
  | None => Raise ValueError
  end.

(** *** [pytz] zones

    A zone gives the UTC offset, in microseconds, that [localize] (with its
    default [is_dst=False]) attaches to a naive wall-clock reading. *)
Record zone : Type := mk_zone {
  utcoffset_at : Z -> Z
}.

(** [tz.localize(dt)]: only a naive datetime can be localized. *)
Definition localize (tz : zone) (dt : datetime) : result datetime :=
  match tzinfo dt with
  | Some _ => Raise ValueError
  | None => Ok (mk_datetime (wall dt) (Some (utcoffset_at tz (wall dt))))
  end.

(** The year of an ordinal day, by the 400-, 100- and 4-year cycles. *)
Definition year_of_ordinal (o : Z) : Z :=
  let n := o - 1 in
  let n400 := n / 146097 in
  let n := n mod 146097 in
  let n100 := n / 36524 in
  let n := n mod 36524 in
  let n4 := n / 1461 in
  let n := n mod 1461 in
  let n1 := n / 365 in
  let year := n400 * 400 + 1 + n100 * 100 + n4 * 4 + n1 in
  if (n1 =? 4) || (n100 =? 4) then year - 1 else year.

(** The first Sunday on or after ordinal day [o]. *)
Definition sunday_on_or_after (o : Z) : Z := o + (6 - weekday o).

(** [pytz.timezone('America/Montreal')] under the rule in force since
    2007: Eastern Standard Time (UTC-5), and Eastern Daylight Time (UTC-4)
    from 02:00 on the second Sunday of March to 02:00 on the first Sunday
    of November.  [localize] resolves the skipped hour and the repeated
    hour to standard time. *)
Definition America_Montreal : zone :=
  mk_zone (fun w =>
    let year := year_of_ordinal (w / US_PER_DAY) in
    let dst_start :=
      (sunday_on_or_after (ymd2ord year 3 1) + 7) * US_PER_DAY + 3 * US_PER_HOUR in
    let dst_end :=
      sunday_on_or_after (ymd2ord year 11 1) * US_PER_DAY + 1 * US_PER_HOUR in
    if (dst_start <=? w) && (w <? dst_end)
    then -4 * US_PER_HOUR else -5 * US_PER_HOUR).

End DateTime.

Export DateTime.

(** ** [api_integrations.py] *)

Module ApiIntegrations.

(** [APIIntegrations._categorize_event] *)
Definition _categorize_event (event_name : string) : string :=
  let event_lower := Str.lower event_name in
  if Str.any_in ["music"; "concert"; "jazz"; "rock"; "pop"; "band"; "singer"; "festival"] event_lower
  then "music"
  else if Str.any_in ["film"; "movie"; "cinema"; "documentary"; "screening"; "festival"] event_lower
  then "film"
  else if Str.any_in ["food"; "culinary"; "wine"; "beer"; "taste"; "dining"; "restaurant"; "festival"] event_lower
  then "food"
  else if Str.any_in ["art"; "exhibition"; "gallery"; "museum"; "painting"; "sculpture"; "festival"] event_lower
  then "art"
  else if Str.any_in ["comedy"; "standup"; "humor"; "laugh"; "joke"; "festival"] event_lower
  then "comedy"
  else if Str.any_in ["dance"; "ballet"; "performance"; "theatre"; "theater"; "festival"] event_lower
  then "dance"
  else "other".

Definition required_fields : list string := ["name"; "venue"; "start_date"].

(** The inner [try] of [_is_valid_festival]: parse the start and compare it
    with the window.  The chained comparison evaluates its right bound only
    when the left comparison holds. *)
Definition start_in_window (festival : dict) (current_date : datetime)
  : result bool :=
  v ← getitem festival "start_date";
  s ← as_str v;
  start_date ← fromisoformat (Str.replace "Z" "+00:00" s);
  lo ← dt_sub current_date (timedelta_days 30);
  after_lo ← dt_le lo start_date;
  if (after_lo : bool)
  then (hi ← dt_add current_date (timedelta_days 90); dt_le start_date hi)
  else mret false.

(** [APIIntegrations._is_valid_festival] *)
Definition _is_valid_festival (festival : dict) (current_date : datetime)
  : bool :=
  try_except
    (if negb (forallb (contains_key festival) required_fields)
     then mret false
     else
       name ← getitem festival "name";
       n ← len name;
       if (n : Z) <? 3 then mret false
       else mret (try_except (start_in_window festival current_date) false))
    false.

(** The loop of [get_live_festivals] that appends the valid festivals. *)
Fixpoint validate_loop (current_date : datetime)
    (festivals valid_festivals : list dict) : list dict :=
  match festivals with
  | [] => valid_festivals
  | festival :: rest =>
      validate_loop current_date rest
        (if _is_valid_festival festival current_date
         then valid_festivals ++ [festival]
         else valid_festivals)
  end.

(** The Validity Filter: the loop started on the empty list. *)
Definition validity_filter (festivals : list dict) (current_date : datetime)
  : list dict :=
  validate_loop current_date festivals [].

(** [APIIntegrations.get_live_festivals], given what each of the six
    adapters returned (an adapter catches its own failures and returns a
    list) and the reading of [datetime.now()]. *)
Definition get_live_festivals (adapters : list (list dict))
    (current_date : datetime) : list dict :=
  let festivals := concat adapters in
  take 50 (validity_filter festivals current_date).

(** The table of [_get_nearest_metro], in the order of its dictionary. *)
Definition metro_stations : list (string * string) :=
  [ ("quartier des spectacles", "Place-des-Arts");
    ("place des arts", "Place-des-Arts");
    ("old port", "Place-d'Armes");
    ("parc jean-drapeau", "Jean-Drapeau");
    ("quartier latin", "Berri-UQAM");
    ("downtown", "McGill");
    ("plateau", "Sherbrooke");
    ("mile end", "Laurier") ].

(** The loop over the items of the table: the station of the first
    location found in the address, [Multiple stations] when the loop ends. *)
Fixpoint station_loop (items : list (string * string)) (address_lower : string)
  : string :=
  match items with
  | [] => "Multiple stations"
  | (location, station) :: items' =>
      if Str.is_in location address_lower then station
      else station_loop items' address_lower
  end.

(** [APIIntegrations._get_nearest_metro] *)
Definition _get_nearest_metro (address : string) : string :=
  let address_lower := Str.lower address in
  station_loop metro_stations address_lower.

End ApiIntegrations.
Export ApiIntegrations.

(** ** [festival_service.py] *)

Module FestivalService.

Definition festival_record
    (name venue address start_date end_date url source category price metro
     : string) : dict :=
  {[ "name" := VStr name; "venue" := VStr venue; "address" := VStr address;
     "start_date" := VStr start_date; "end_date" := VStr end_date;
     "url" := VStr url; "source" := VStr source;
     "category" := VStr category; "price" := VStr price;
     "metro" := VStr metro ]}.

(** [_get_fallback_festivals] *)
Definition _get_fallback_festivals : list dict :=
  [ festival_record "Montreal Jazz Festival" "Quartier des Spectacles"
      "Quartier des Spectacles, Montreal, QC H2X 1X8"
      "2024-06-27T18:00:00" "2024-07-06T23:00:00"
      "https://www.montrealjazzfest.com" "Fallback Data" "music"
      "$25-150 CAD" "Place-des-Arts";
    festival_record "Osheaga Music Festival" "Parc Jean-Drapeau"
      "Parc Jean-Drapeau, Montreal, QC H3C 6A3"
      "2024-08-02T12:00:00" "2024-08-04T23:00:00"
      "https://www.osheaga.com" "Fallback Data" "music"
      "$150-300 CAD" "Jean-Drapeau";
    festival_record "Just for Laughs Comedy Festival" "Quartier Latin"
      "Quartier Latin, Montreal, QC H2L 2L4"
      "2024-07-10T19:00:00" "2024-07-28T23:00:00"
      "https://www.hahaha.com" "Fallback Data" "comedy"
      "$30-120 CAD" "Berri-UQAM";
    festival_record "Montreal International Film Festival" "Various Cinemas"
      "Downtown Montreal, QC"
      "2024-08-22T10:00:00" "2024-09-02T23:00:00"
      "https://www.ffm-montreal.org" "Fallback Data" "film"
      "$15-50 CAD" "Place-des-Arts";
    festival_record "Montreal Food Festival" "Old Port of Montreal"
      "Old Port of Montreal, QC H2Y 1C6"
      "2024-07-15T11:00:00" "2024-07-21T22:00:00"
      "https://www.montrealfoodfest.com" "Fallback Data" "food"
      "$20-80 CAD" "Place-d'Armes" ].

(** [not festivals]: the truth value of a list. *)
Definition is_empty (festivals : list dict) : bool :=
  match festivals with [] => true | _ => false end.

(** [get_ongoing_festivals], given the outcome of
    [get_live_festivals_from_apis()]: a list, or an exception. *)
Definition get_ongoing_festivals (live : result (list dict)) : list dict :=
  match live with
  | Ok festivals =>
      if is_empty festivals then _get_fallback_festivals else festivals
  | Raise _ => _get_fallback_festivals
  end.

End FestivalService.
Export FestivalService.

(** ** [main.py] *)

Module Main.

Section Assistant.

(** [MONTREAL_TZ], the zone every localization goes through. *)
Variable MONTREAL_TZ : zone.

(** The reading of [get_current_montreal_time()]: an aware datetime. *)
Variable current_time : datetime.

(** [MontrealFestivalAssistant._get_next_weekday] *)
Definition _get_next_weekday (weekday_index : Z) : result date :=
  let today := date_of current_time in
  let days_ahead := weekday_index - weekday today in
  let days_ahead := if days_ahead <=? 0 then days_ahead + 7 else days_ahead in
  date_add_days today days_ahead.

(** The [if]/[elif] chain of [_parse_datetime] over the day text; the
    [tonight] branch also overwrites [time_lower]. *)
Definition resolve_day (day day_lower time_lower : string)
  : result (date * string) :=
  if Str.in_list day_lower ["today"; "now"]
  then mret (date_of current_time, time_lower)
  else if Str.in_list day_lower ["tomorrow"]
  then (d ← dt_add current_time (timedelta_days 1);
        mret (date_of d, time_lower))
  else if Str.in_list day_lower ["tonight"]
  then mret (date_of current_time, "evening")
  else if Str.in_list day_lower ["monday"; "mon"]
  then (d ← _get_next_weekday 0; mret (d, time_lower))
  else if Str.in_list day_lower ["tuesday"; "tue"]
  then (d ← _get_next_weekday 1; mret (d, time_lower))
  else if Str.in_list day_lower ["wednesday"; "wed"]
  then (d ← _get_next_weekday 2; mret (d, time_lower))
  else if Str.in_list day_lower ["thursday"; "thu"]
  then (d ← _get_next_weekday 3; mret (d, time_lower))
  else if Str.in_list day_lower ["friday"; "fri"]
  then (d ← _get_next_weekday 4; mret (d, time_lower))
  else if Str.in_list day_lower ["saturday"; "sat"]
  then (d ← _get_next_weekday 5; mret (d, time_lower))
  else if Str.in_list day_lower ["sunday"; "sun"]
  then (d ← _get_next_weekday 6; mret (d, time_lower))
  else
    mret (try_except (d ← strptime_Ymd day; mret (date_of d))
                     (date_of current_time),
          time_lower).

(** The [if]/[elif] chain of [_parse_datetime] over the time text. *)
Definition resolve_time (time time_lower : string) : result DateTime.time :=
  if Str.in_list time_lower ["morning"; "am"]
  then (t ← strptime_HM "09:00"; mret (time_of t))
  else if Str.in_list time_lower ["afternoon"; "pm"]
  then (t ← strptime_HM "14:00"; mret (time_of t))
  else if Str.in_list time_lower ["evening"; "night"]
  then (t ← strptime_HM "19:00"; mret (time_of t))
  else
    mret (try_except (t ← strptime_HM time; mret (time_of t))
                     (time_of current_time)).

(** [MontrealFestivalAssistant._parse_datetime] *)
Definition _parse_datetime (day time : string) : datetime :=
  try_except
    (let day_lower := Str.lower day in
     let time_lower := Str.lower time in
     '(target_date, time_lower) ← resolve_day day day_lower time_lower;
     target_time ← resolve_time time time_lower;
     let naive_datetime := combine target_date target_time in
     localize MONTREAL_TZ naive_datetime)
    current_time.

(** One end of the festival's interval, as [_is_festival_at_time] parses
    it: a string with a [T] goes through [fromisoformat], any other through
    [strptime] and [localize]. *)
Definition parse_festival_date (date_str : string) : result datetime :=
  if Str.is_in "T" date_str
  then fromisoformat date_str
  else (d ← strptime_Ymd date_str; localize MONTREAL_TZ d).

(** [if dt.tzinfo is None: dt = MONTREAL_TZ.localize(dt)] *)
Definition ensure_aware (dt : datetime) : result datetime :=
  match tzinfo dt with
  | None => localize MONTREAL_TZ dt
  | Some _ => mret dt
  end.

(** The body of the [try] of [_is_festival_at_time]. *)
Definition festival_at_time_body (festival : dict) (target_datetime : datetime)
  : result bool :=
  sv ← getitem festival "start_date";
  ss ← as_str sv;
  let start_date_str := Str.replace "Z" "+00:00" ss in
  ev ← getitem festival "end_date";
  es ← as_str ev;
  let end_date_str := Str.replace "Z" "+00:00" es in
  start_date ← parse_festival_date start_date_str;
  end_date ← parse_festival_date end_date_str;
  start_date ← ensure_aware start_date;
  end_date ← ensure_aware end_date;
  target_datetime ← ensure_aware target_datetime;
  after_start ← dt_le start_date target_datetime;
  if (after_start : bool) then dt_le target_datetime end_date else mret false.

(** [MontrealFestivalAssistant._is_festival_at_time] *)
Definition _is_festival_at_time (festival : dict) (target_datetime : datetime)
  : bool :=
  try_except (festival_at_time_body festival target_datetime) false.

(** *** The Criteria Parser *)

Definition category_keywords : list (string * list string) :=
  [ ("music", ["music"; "concert"; "jazz"; "rock"; "pop"]);
    ("film", ["film"; "movie"; "cinema"; "documentary"]);
    ("food", ["food"; "culinary"; "wine"; "beer"; "taste"]);
    ("art", ["art"; "exhibition"; "gallery"; "museum"]);
    ("comedy", ["comedy"; "standup"; "humor"]);
    ("dance", ["dance"; "ballet"; "performance"]) ].

Definition day_keywords : list (string * list string) :=
  [ ("today", ["today"; "now"]);
    ("tomorrow", ["tomorrow"]);
    ("tonight", ["tonight"]);
    ("monday", ["monday"; "mon"]);
    ("tuesday", ["tuesday"; "tue"]);
    ("wednesday", ["wednesday"; "wed"]);
    ("thursday", ["thursday"; "thu"]);
    ("friday", ["friday"; "fri"]);
    ("saturday", ["saturday"; "sat"]);
    ("sunday", ["sunday"; "sun"]) ].

Definition time_keywords : list (string * list string) :=
  [ ("morning", ["morning"; "am"]);
    ("afternoon", ["afternoon"; "pm"]);
    ("evening", ["evening"; "night"]);
    ("night", ["night"]) ].

(** The inner loop: the first entry of the table, in its order, whose
    keyword list holds [word]. *)
Fixpoint entry_of_word (table : list (string * list string)) (word : string)
  : option string :=
  match table with
  | [] => None
  | (key, keywords) :: table' =>
      if Str.in_list word keywords then Some key
      else entry_of_word table' word
  end.

(** The outer loop: the first word that some entry holds. *)
Fixpoint scan_words (table : list (string * list string)) (words : list string)
  : option string :=
  match words with
  | [] => None
  | word :: words' =>
      match entry_of_word table word with
      | Some key => Some key
      | None => scan_words table words'
      end
  end.

(** The inference of the category from the whole input when no word
    matched; [category] is the default it starts from. *)
Definition infer_category (input_lower category : string) : string :=
  if Str.any_in ["music"; "concert"; "jazz"] input_lower then "music"
  else if Str.any_in ["food"; "culinary"; "restaurant"] input_lower then "food"
  else if Str.any_in ["comedy"; "humor"; "standup"] input_lower then "comedy"
  else if Str.any_in ["art"; "exhibition"; "gallery"] input_lower then "art"
  else if Str.any_in ["dance"; "ballet"] input_lower then "dance"
  else if Str.any_in ["film"; "movie"; "cinema"] input_lower then "film"
  else category.

(** The inference of the time of day from the current hour. *)
Definition infer_time (current_hour : Z) : string :=
  if (6 <=? current_hour) && (current_hour <? 12) then "morning"
  else if (12 <=? current_hour) && (current_hour <? 17) then "afternoon"
  else if (17 <=? current_hour) && (current_hour <? 22) then "evening"
  else "night".

(** [MontrealFestivalAssistant._parse_user_input] *)
Definition _parse_user_input (user_input : string) : string * string * string :=
  let category := "music" in
  let day := "today" in
  let input_lower := Str.lower user_input in
  let words := Str.split input_lower in
  let category :=
    match scan_words category_keywords words with
    | Some cat => cat
    | None => infer_category input_lower category
    end in
  let day :=
    match scan_words day_keywords words with
    | Some day_name => day_name
    | None => day
    end in
  let time :=
    match scan_words time_keywords words with
    | Some time_name => time_name
    | None => infer_time (hour current_time)
    end in
  (category, day, time).

(** *** Matching festivals to criteria *)

(** [category.lower() in festival['name'].lower() or
     category.lower() in festival.get('category', '').lower()];
    [or] evaluates its right side only when the left one is false. *)
Definition category_matches (category : string) (festival : dict)
  : result bool :=
  nv ← getitem festival "name";
  name ← as_str nv;
  if Str.is_in (Str.lower category) (Str.lower name) then mret true
  else
    cat ← as_str (dict_get festival "category" (VStr ""));
    mret (Str.is_in (Str.lower category) (Str.lower cat)).

(** The loop of the branch without day and time criteria. *)
Fixpoint category_loop (category : string)
    (festivals matching_festivals : list dict) : result (list dict) :=
  match festivals with
  | [] => mret matching_festivals
  | festival :: rest =>
      category_match ← category_matches category festival;
      category_loop category rest
        (if (category_match : bool) then matching_festivals ++ [festival]
         else matching_festivals)
  end.

(** The loop of the branch with a target datetime: [time_match] is
    computed for every festival and not consulted. *)
Fixpoint criteria_loop (category : string) (target_datetime : datetime)
    (festivals matching_festivals : list dict) : result (list dict) :=
  match festivals with
  | [] => mret matching_festivals
  | festival :: rest =>
      category_match ← category_matches category festival;
      let time_match := _is_festival_at_time festival target_datetime in
      criteria_loop category target_datetime rest
        (if (category_match : bool) then matching_festivals ++ [festival]
         else matching_festivals)
  end.

(** [MontrealFestivalAssistant.get_festivals_by_criteria], given the list
    that [get_ongoing_festivals()] returned. *)
Definition get_festivals_by_criteria (festivals : list dict)
    (category day time : string) : list dict :=
  try_except
    (if Str.in_list (Str.lower day) ["any"; "all"; ""] &&
        Str.in_list (Str.lower time) ["any"; "all"; ""]
     then category_loop category festivals []
     else
       let target_datetime := _parse_datetime day time in
       criteria_loop category target_datetime festivals [])
    [].

End Assistant.

End Main.
Export Main.

(** ** [memory.py] *)

Module Memory.

(** A stored conversation; [task_results] holds the dictionaries of the
    executed tasks. *)
Record conversation : Type := mk_conversation {
  conv_timestamp : string;
  conv_user_input : string;
  conv_agent_response : string;
  conv_task_results : list dict;
  conv_id : string
}.

(** A stored task result. *)
Record task_record : Type := mk_task_record {
  rec_timestamp : string;
  rec_task_description : string;
  rec_result : dict;
  rec_id : string
}.

(** The entry of one user preference. *)
Record preference : Type := mk_preference {
  pref_value : value;
  pref_timestamp : string
}.

(** A learned pattern. *)
Record pattern : Type := mk_pattern {
  pattern_type : string;
  pattern_data : dict;
  pattern_timestamp : string;
  pattern_frequency : Z
}.

(** [MemoryManager.memory_data]; writing it to the memory file is an
    effect outside this state, and a failed write is caught and logged. *)
Record memory_data : Type := mk_memory {
  conversations : list conversation;
  task_results : list task_record;
  user_preferences : gmap string preference;
  learned_patterns : list pattern
}.

Section Manager.

(** [hashlib.md5(content.encode()).hexdigest()[:8]] *)
Variable _generate_id : string -> string.

(** [l[-limit:]]: a negative start counts from the end and stops at the
    head of the list; a start of zero or more counts from the head. *)
Definition slice_last {A} (limit : Z) (l : list A) : list A :=
  let n := Z.of_nat (List.length l) in
  let start := - limit in
  let start := if start <? 0 then Z.max (n + start) 0 else Z.min start n in
  drop (Z.to_nat start) l.

(** [MemoryManager.store_conversation]; [now_iso] is the reading of
    [datetime.now().isoformat()], and [None] stands for a call without
    task results. *)
Definition store_conversation (m : memory_data) (now_iso : string)
    (user_input agent_response : string) (results : option (list dict))
  : memory_data :=
  let conversation :=
    mk_conversation now_iso user_input agent_response
      (match results with Some (r :: rs) => r :: rs | _ => [] end)
      (_generate_id (String.append user_input agent_response)) in
  mk_memory (conversations m ++ [conversation]) (task_results m)
            (user_preferences m) (learned_patterns m).

(** [MemoryManager.store_task_result] *)
Definition store_task_result (m : memory_data) (now_iso : string)
    (task_description : string) (result : dict) : memory_data :=
  let task_record :=
    mk_task_record now_iso task_description result
                   (_generate_id task_description) in
  mk_memory (conversations m) (task_results m ++ [task_record])
            (user_preferences m) (learned_patterns m).

(** [MemoryManager.store_user_preference] *)
Definition store_user_preference (m : memory_data) (now_iso : string)
    (key : string) (v : value) : memory_data :=
  mk_memory (conversations m) (task_results m)
            (<[key := mk_preference v now_iso]> (user_preferences m))
            (learned_patterns m).

(** [MemoryManager.recall_conversations] *)
Definition recall_conversations (m : memory_data) (limit : Z)
  : list conversation :=
  match conversations m with
  | [] => []
  | _ => slice_last limit (conversations m)
  end.

(** [MemoryManager.recall_task_results]; a keyword [None] or empty does
    not filter. *)
Definition recall_task_results (m : memory_data)
    (task_keyword : option string) (limit : Z) : list task_record :=
  let results := task_results m in
  let filtered_results :=
    match task_keyword with
    | Some (String c k) =>
        List.filter
          (fun result =>
             Str.is_in (Str.lower (String c k))
                       (Str.lower (rec_task_description result)))
          results
    | _ => results
    end in
  match filtered_results with
  | [] => []
  | _ => slice_last limit filtered_results
  end.

(** [MemoryManager.get_user_preference] *)
Definition get_user_preference (m : memory_data) (key : string)
    (default : value) : value :=
  match user_preferences m !! key with
  | Some p => pref_value p
  | None => default
  end.

(** The in-place update of [learn_pattern] on the first pattern of the
    type: the frequency grows by one and the new data is merged over the
    old. *)
Fixpoint update_first (pattern_type0 : string) (data : dict)
    (patterns : list pattern) : list pattern :=
  match patterns with
  | [] => []
  | p :: patterns' =>
      if String.eqb (pattern_type p) pattern_type0
      then mk_pattern (pattern_type p) (data ∪ pattern_data p)
                      (pattern_timestamp p) (pattern_frequency p + 1)
           :: patterns'
      else p :: update_first pattern_type0 data patterns'
  end.

(** [MemoryManager.get_learned_patterns]; a pattern type [None] or empty
    returns every pattern. *)
Definition get_learned_patterns (m : memory_data)
    (pattern_type0 : option string) : list pattern :=
  let patterns := learned_patterns m in
  match pattern_type0 with
  | Some (String c t) =>
      List.filter (fun p => String.eqb (pattern_type p) (String c t)) patterns
  | _ => patterns
  end.

(** [MemoryManager.learn_pattern] *)
Definition learn_pattern (m : memory_data) (now_iso : string)
    (pattern_type0 : string) (data : dict) : memory_data :=
  let pattern := mk_pattern pattern_type0 data now_iso 1 in
  let existing_patterns :=
    List.filter (fun p => String.eqb (pattern_type p) pattern_type0)
                (learned_patterns m) in
  mk_memory (conversations m) (task_results m) (user_preferences m)
    (match existing_patterns with
     | _ :: _ => update_first pattern_type0 data (learned_patterns m)
     | [] => (learned_patterns m ++ [pattern])%list
     end).

End Manager.

End Memory.

(** ** [ui_helper.py] and the guided search of [main.py] *)

Module FestivalUI.

(** The three tables of [FestivalUI.__init__], by menu key. *)
Definition categories : list (string * string) :=
  [("1", "music"); ("2", "film"); ("3", "food"); ("4", "art"); ("5", "comedy")].

Definition days : list (string * string) :=
  [("1", "today"); ("2", "tomorrow"); ("3", "monday"); ("4", "tuesday");
   ("5", "wednesday"); ("6", "thursday"); ("7", "friday"); ("8", "saturday");
   ("9", "sunday")].

Definition times : list (string * string) :=
  [("1", "morning"); ("2", "afternoon"); ("3", "evening"); ("4", "night")].

(** [choice in table] and [table[choice]] of the three menus: the value
    under a key, [None] for an invalid choice. *)
Fixpoint menu_lookup (table : list (string * string)) (choice : string)
  : option string :=
  match table with
  | [] => None
  | (key, v) :: table' =>
      if String.eqb key choice then Some v else menu_lookup table' choice
  end.

(** The text that [main] makes of a guided selection:
    [f"{category} {day} {time}"]. *)
Definition search_input (category day time : string) : string :=
  String.append category
    (String.append " " (String.append day (String.append " " time))).

End FestivalUI.

(** ** [live_festival_scraper.py] *)

Module LiveFestivalScraper.

Definition cultural_keywords : list string :=
  ["festival"; "concert"; "music"; "jazz"; "rock"; "pop"; "classical";
   "art"; "exhibition"; "gallery"; "museum"; "theatre"; "theater";
   "dance"; "ballet"; "comedy"; "film"; "movie"; "cinema";
   "food"; "culinary"; "wine"; "beer"; "taste"; "culture";
   "performance"; "show"; "entertainment"; "celebration"].

Definition business_keywords : list string :=
  ["conference"; "summit"; "expo"; "trade"; "business"; "technology";
   "cyber"; "security"; "ai"; "artificial intelligence"; "startup";
   "networking"; "workshop"; "seminar"; "meeting"; "forum"].

(** [LiveFestivalScraper._is_cultural_event] *)
Definition _is_cultural_event (event_name : string) : bool :=
  let event_lower := Str.lower event_name in
  let has_cultural := Str.any_in cultural_keywords event_lower in
  let has_business := Str.any_in business_keywords event_lower in
  has_cultural && negb has_business.

End LiveFestivalScraper.

(** ** [planner.py] *)

Module Planner.

(** A task dictionary; the keys [priority] and [dependencies] may be
    missing, the readers of tasks supplying a default for them. *)
Record task : Type := mk_task {
  task_id : string;
  description : string;
  priority : option Z;
  dependencies : option (list string);
  estimated_time : string;
  tools_needed : list string;
  success_criteria : string
}.

(** [TaskPlanner._create_structured_tasks] *)
Definition _create_structured_tasks (user_input planning_response : string)
  : list task :=
  let tasks : list task := [] in
  let input_lower := Str.lower user_input in
  let tasks :=
    if Str.is_in "search" input_lower || Str.is_in "find" input_lower
    then (tasks ++ [mk_task "search_task"
                     (String.append "Search for information related to: " user_input)
                     (Some 1) (Some []) "2-3 minutes" ["gemini_api"]
                     "Relevant information found and presented"])%list
    else tasks in
  let tasks :=
    if Str.is_in "analyze" input_lower || Str.is_in "analyze" input_lower
    then (tasks ++ [mk_task "analysis_task"
                     (String.append "Analyze the provided information: " user_input)
                     (Some 2) (Some ["search_task"]) "3-5 minutes"
                     ["gemini_api"; "memory"]
                     "Comprehensive analysis completed"])%list
    else tasks in
  let tasks :=
    if Str.is_in "recommend" input_lower || Str.is_in "suggest" input_lower
    then (tasks ++ [mk_task "recommendation_task"
                     (String.append "Generate recommendations based on: " user_input)
                     (Some 3) (Some ["search_task"; "analysis_task"])
                     "2-3 minutes" ["gemini_api"; "memory"]
                     "Actionable recommendations provided"])%list
    else tasks in
  match tasks with
  | [] => (tasks ++ [mk_task "general_task"
                      (String.append "Process user request: " user_input)
                      (Some 1) (Some []) "3-5 minutes" ["gemini_api"]
                      "Request processed and response provided"])%list
  | _ => tasks
  end.

(** [TaskPlanner._create_fallback_tasks] *)
Definition _create_fallback_tasks (user_input : string) : list task :=
  [mk_task "fallback_task"
     (String.append "Process user request: " user_input)
     (Some 1) (Some []) "3-5 minutes" ["gemini_api"]
     "Request processed and response provided"].

(** [x.get('priority', 999)] *)
Definition priority_key (x : task) : Z :=
  match priority x with Some p => p | None => 999 end.

(** [sorted(tasks, key=...)], a stable sort: each task, in the order of
    the input, goes after the tasks whose key is not greater. *)
Fixpoint insert_by_key (key : task -> Z) (x : task) (l : list task)
  : list task :=
  match l with
  | [] => [x]
  | y :: l' =>
      if key x <? key y then x :: y :: l' else y :: insert_by_key key x l'
  end.

Definition sorted (tasks : list task) (key : task -> Z) : list task :=
  fold_left (fun acc x => insert_by_key key x acc) tasks [].

(** [TaskPlanner.prioritize_tasks] *)
Definition prioritize_tasks (tasks : list task) : list task :=
  sorted tasks priority_key.

(** [TaskPlanner.validate_task_dependencies]: the loops answer false at
    the first dependency that is no task identifier. *)
Definition validate_task_dependencies (tasks : list task) : bool :=
  let task_ids := map task_id tasks in
  forallb (fun task =>
             forallb (fun dep => Str.in_list dep task_ids)
                     (match dependencies task with
                      | Some deps => deps
                      | None => []
                      end))
          tasks.

End Planner.

(** * Specification-side definitions *)

(** The day names that [_parse_datetime] resolves through
    [_get_next_weekday], each with the weekday index it passes. *)
Definition weekday_names : list (string * Z) :=
  [ ("monday", 0); ("mon", 0); ("tuesday", 1); ("tue", 1);
    ("wednesday", 2); ("wed", 2); ("thursday", 3); ("thu", 3);
    ("friday", 4); ("fri", 4); ("saturday", 5); ("sat", 5);
    ("sunday", 6); ("sun", 6) ].

(** The Category Classifier as the specification words it: an ordered
    table of categories with their keyword sets, read first match first. *)
Definition classifier_table : list (string * list string) :=
  [ ("music", ["music"; "concert"; "jazz"; "rock"; "pop"; "band"; "singer"; "festival"]);
    ("film", ["film"; "movie"; "cinema"; "documentary"; "screening"; "festival"]);
    ("food", ["food"; "culinary"; "wine"; "beer"; "taste"; "dining"; "restaurant"; "festival"]);
    ("art", ["art"; "exhibition"; "gallery"; "museum"; "painting"; "sculpture"; "festival"]);
    ("comedy", ["comedy"; "standup"; "humor"; "laugh"; "joke"; "festival"]);
    ("dance", ["dance"; "ballet"; "performance"; "theatre"; "theater"; "festival"]) ].

Fixpoint first_match (table : list (string * list string)) (text_lower : string)
  : string :=
  match table with
  | [] => "other"
  | (category, keywords) :: table' =>
      if Str.any_in keywords text_lower then category
      else first_match table' text_lower
  end.

(** [word] occurs in [text], letter case apart. *)
Definition contains_ignoring_case (word text : string) : bool :=
  Str.is_in (Str.lower word) (Str.lower text).

(** The three required keys are in the dictionary. *)
Definition keys_present (festival : dict) : bool :=
  forallb (contains_key festival) required_fields.

(** [len(v) >= n], false when [v] has no length. *)
Definition has_length_at_least (v : value) (n : Z) : bool :=
  match len v with
  | Ok k => n <=? k
  | Raise _ => false
  end.

(** The start of a festival as the filter reads it: the [start_date]
    string, [Z] rewritten to [+00:00], through [fromisoformat]. *)
Definition start_of (festival : dict) : option datetime :=
  match festival !! "start_date" with
  | Some (VStr s) =>
      match fromisoformat (Str.replace "Z" "+00:00" s) with
      | Ok start => Some start
      | Raise _ => None
      end
  | _ => None
  end.

(** The start parses to a datetime that carries a UTC offset. *)
Definition start_is_aware (festival : dict) : bool :=
  match start_of festival with
  | Some start => match tzinfo start with Some _ => true | None => false end
  | None => false
  end.

(** [start] lies in the rolling window around [now], bounds included. *)
Definition in_window (now start : datetime) : Prop :=
  wall now - timedelta_days 30 <= wall start <= wall now + timedelta_days 90.

(** The conditions under which the filter keeps a festival. *)
Definition keeps (festival : dict) (now : datetime) : Prop :=
  keys_present festival = true /\
  (exists name, festival !! "name" = Some name /\
                has_length_at_least name 3 = true) /\
  (exists start, start_of festival = Some start /\ in_window now start).

(** The malformed festivals: no name, a name shorter than 3, or a start
    that is missing or does not parse. *)
Definition malformed (festival : dict) : Prop :=
  festival !! "name" = None \/
  (exists name, festival !! "name" = Some name /\
                has_length_at_least name 3 = false) \/
  start_of festival = None.

(** A clock reading far enough from both ends of the [datetime] range for
    the two bounds of the window to exist. *)
Definition window_representable (now : datetime) : Prop :=
  MINWALL + timedelta_days 30 <= wall now <= MAXWALL - timedelta_days 90.

(** A value that is present and not empty. *)
Definition nonempty (v : value) : bool :=
  match v with
  | VStr s => negb (String.eqb s "")
  | VList l => match l with [] => false | _ => true end
  | VInt _ => true
  | VNone => false
  end.

(** Every required field is present and non-empty. *)
Definition fields_present_nonempty (festival : dict) : bool :=
  forallb (fun k => match festival !! k with
                    | Some v => nonempty v
                    | None => false
                    end) required_fields.

(** The conditions of the filter as the specification lists them. *)
Definition claimed_keeps (festival : dict) (now : datetime) : Prop :=
  fields_present_nonempty festival = true /\
  (exists name, festival !! "name" = Some name /\
                has_length_at_least name 3 = true) /\
  (exists start, start_of festival = Some start /\ in_window now start).

(** A festival whose venue is the empty string, and a clock reading five
    hours before its start. *)
Definition empty_venue_festival : dict :=
  {[ "name" := VStr "Jazz Night"; "venue" := VStr "";
     "start_date" := VStr "2024-06-27T18:00:00" ]}.

Definition clock_2024_06_27_13h : datetime :=
  mk_datetime (ymd2ord 2024 6 27 * US_PER_DAY + 13 * US_PER_HOUR) None.

(** The window of the round-trip property as the specification words it:
    [now] within [start - 30 days, start + 90 days]. *)
Definition in_claimed_now_window (now start : datetime) : Prop :=
  wall start - timedelta_days 30 <= wall now <= wall start + timedelta_days 90.

(** Midnight at the start of 2024-09-01, naive. *)
Definition clock_2024_09_01 : datetime :=
  mk_datetime (ymd2ord 2024 9 1 * US_PER_DAY) None.

(** 2024-07-27 18:00, naive: thirty days after the start of the first
    seed festival. *)
Definition clock_2024_07_27_18h : datetime :=
  mk_datetime (ymd2ord 2024 7 27 * US_PER_DAY + 18 * US_PER_HOUR) None.

(** The name of a festival is present and has length at least 3. *)
Definition name_long_enough (festival : dict) : bool :=
  match festival !! "name" with
  | Some name => has_length_at_least name 3
  | None => false
  end.

(** Every seed festival starts inside the window around [now]. *)
Definition seeds_in_window (now : datetime) : Prop :=
  Forall (fun f => exists start, start_of f = Some start /\ in_window now start)
         _get_fallback_festivals.

(** Midnight at the start of 2024-07-15, naive. *)
Definition clock_2024_07_15 : datetime :=
  mk_datetime (ymd2ord 2024 7 15 * US_PER_DAY) None.

(** Some character of [s] satisfies [p]. *)
Fixpoint has_char (p : ascii -> bool) (s : string) : bool :=
  match s with
  | EmptyString => false
  | String c s' => p c || has_char p s'
  end.

Definition is_plus (c : ascii) : bool := Ascii.eqb c "+".
Definition is_minus (c : ascii) : bool := Ascii.eqb c "-".
Definition is_sign (c : ascii) : bool := is_minus c || is_plus c.

(** The marks of a UTC offset: the sign of [+HH:MM] or [-HH:MM], or [Z]. *)
Definition is_offset_mark (c : ascii) : bool :=
  Ascii.eqb c "Z" || is_sign c.

(** The time part of a timestamp, after the ten characters of the date and
    the separator, carries an offset mark. *)
Definition carries_utc_offset (s : string) : bool :=
  has_char is_offset_mark (Str.slice_from 11 s).

(** A festival as the Ticketmaster adapter builds it, with a start in UTC. *)
Definition ticketmaster_festival : dict :=
  {[ "name" := VStr "Jazz Night"; "venue" := VStr "Club Soda";
     "start_date" := VStr "2024-06-27T18:00:00Z" ]}.

(** Wednesday 2024-07-17, 09:00 in Montreal (UTC-4). *)
Definition clock_wednesday_9h : datetime :=
  mk_datetime (ymd2ord 2024 7 17 * US_PER_DAY + 9 * US_PER_HOUR)
              (Some (-4 * US_PER_HOUR)).

(** The texts that category matching reads off a festival. *)
Definition name_text (festival : dict) : string :=
  match festival !! "name" with Some (VStr s) => s | _ => "" end.

Definition category_text (festival : dict) : string :=
  match festival !! "category" with Some (VStr s) => s | _ => "" end.

(** The category occurs, letter case apart, in the name or in the category
    field of the festival. *)
Definition matches_category (category : string) (festival : dict) : bool :=
  contains_ignoring_case category (name_text festival)
  || contains_ignoring_case category (category_text festival).

(** A festival as every adapter and the seed list build it: the name is a
    string, and so is the category when there is one. *)
Definition well_formed (festival : dict) : bool :=
  match festival !! "name", festival !! "category" with
  | Some (VStr _), (None | Some (VStr _)) => true
  | _, _ => false
  end.

(** The instant of a datetime on the UTC time line: the wall clock less
    the offset. *)
Definition instant (dt : datetime) : Z :=
  match tzinfo dt with
  | Some offset => wall dt - offset
  | None => wall dt
  end.

(** A datetime made aware: a naive one takes the offset of the zone. *)
Definition aware (tz : zone) (dt : datetime) : datetime :=
  match tzinfo dt with
  | Some _ => dt
  | None => mk_datetime (wall dt) (Some (utcoffset_at tz (wall dt)))
  end.

(** One end of a festival's interval as an instant: the string under
    [key], parsed in its date-only or full-timestamp form and localized
    when naive; [None] when the key is missing, holds no string, or the
    string does not parse. *)
Definition festival_instant (tz : zone) (festival : dict) (key : string)
  : option Z :=
  match festival !! key with
  | Some (VStr s) =>
      match parse_festival_date tz (Str.replace "Z" "+00:00" s) with
      | Ok dt => Some (instant (aware tz dt))
      | Raise _ => None
      end
  | _ => None
  end.

(** 2024-06-30 20:00, naive. *)
Definition clock_2024_06_30_20h : datetime :=
  mk_datetime (ymd2ord 2024 6 30 * US_PER_DAY + 20 * US_PER_HOUR) None.

(** No location of the metro table occurs in the lowered address. *)
Definition no_known_location (address : string) : bool :=
  forallb (fun item => negb (Str.is_in (fst item) (Str.lower address)))
          metro_stations.

(** No keyword of any category occurs in the lowered name. *)
Definition no_category_keyword (name : string) : bool :=
  forallb (fun entry => negb (Str.any_in (snd entry) (Str.lower name)))
          classifier_table.

(** The start of the festival is a string that carries a UTC offset. *)
Definition start_carries_offset (festival : dict) : bool :=
  match festival !! "start_date" with
  | Some (VStr s) => carries_utc_offset s
  | _ => false
  end.

(** Two festivals in UTC, as the Ticketmaster and Eventbrite adapters
    build them. *)
Definition utc_adapter_outputs : list (list dict) :=
  [ [ ticketmaster_festival ];
    [ {[ "name" := VStr "Osheaga"; "venue" := VStr "Parc Jean-Drapeau";
         "start_date" := VStr "2024-08-02T16:00:00Z" ]} ] ].

(** The tokens the Criteria Parser can return. *)
Definition category_tokens : list string :=
  ["music"; "film"; "food"; "art"; "comedy"; "dance"].

Definition day_tokens : list string :=
  ["today"; "tomorrow"; "tonight"; "monday"; "tuesday"; "wednesday";
   "thursday"; "friday"; "saturday"; "sunday"].

Definition time_tokens : list string :=
  ["morning"; "afternoon"; "evening"; "night"].

(** The words that [_parse_datetime] knows as a day, and as a time. *)
Definition named_days : list string :=
  ["today"; "now"; "tomorrow"; "tonight"; "monday"; "mon"; "tuesday"; "tue";
   "wednesday"; "wed"; "thursday"; "thu"; "friday"; "fri"; "saturday"; "sat";
   "sunday"; "sun"].

Definition named_times : list string :=
  ["morning"; "am"; "afternoon"; "pm"; "evening"; "night"].

(** The three clock times of the named periods. *)
Definition period_times : list Z :=
  [9 * US_PER_HOUR; 14 * US_PER_HOUR; 19 * US_PER_HOUR].

(** Saturday 2024-07-20, 23:00 in Montreal (UTC-4). *)
Definition clock_saturday_23h : datetime :=
  mk_datetime (ymd2ord 2024 7 20 * US_PER_DAY + 23 * US_PER_HOUR)
              (Some (-4 * US_PER_HOUR)).

(** A record without a name, as a failed lookup leaves it. *)
Definition nameless_festival : dict :=
  {[ "venue" := VStr "Club Soda"; "category" := VStr "music" ]}.

(** A festival whose end precedes its start. *)
Definition reversed_festival : dict :=
  {[ "name" := VStr "Jazz Night"; "start_date" := VStr "2024-07-06T23:00:00";
     "end_date" := VStr "2024-06-27T18:00:00" ]}.

(** The first learned pattern of a type, and its frequency, 0 when the
    type was never learned. *)
Definition first_of_type (pattern_type0 : string)
    (patterns : list Memory.pattern) : option Memory.pattern :=
  head (List.filter
          (fun p => String.eqb (Memory.pattern_type p) pattern_type0)
          patterns).

Definition frequency_of (pattern_type0 : string)
    (patterns : list Memory.pattern) : Z :=
  match first_of_type pattern_type0 patterns with
  | Some p => Memory.pattern_frequency p
  | None => 0
  end.

(** A memory with three conversations, for the identifier function that
    keeps the first eight characters. *)
Definition id_of (content : string) : string := substring 0 8 content.

Definition three_conversations : Memory.memory_data :=
  Memory.store_conversation id_of
    (Memory.store_conversation id_of
       (Memory.store_conversation id_of
          (Memory.mk_memory [] [] ∅ [])
          "2024-07-17T09:00:00" "music today" "Jazz Festival" None)
       "2024-07-17T09:05:00" "film tomorrow" "Film Festival" None)
    "2024-07-17T09:10:00" "food tonight" "Food Festival" None.

(** The three patterns [_create_structured_tasks] looks for in a request. *)
Definition asks_search (user_input : string) : bool :=
  Str.is_in "search" (Str.lower user_input)
  || Str.is_in "find" (Str.lower user_input).

Definition asks_analysis (user_input : string) : bool :=
  Str.is_in "analyze" (Str.lower user_input).

Definition asks_recommendation (user_input : string) : bool :=
  Str.is_in "recommend" (Str.lower user_input)
  || Str.is_in "suggest" (Str.lower user_input).

(** 2024-09-21 10:00: thirty days after the start of the last seed
    festival. *)
Definition seeds_expiry_wall : Z :=
  ymd2ord 2024 9 21 * US_PER_DAY + 10 * US_PER_HOUR.

(** Midnight at the start of 2025-06-27, naive. *)
Definition clock_2025_06_27 : datetime :=
  mk_datetime (ymd2ord 2025 6 27 * US_PER_DAY) None.

(** A festival whose start carries the offset of Montreal in summer and
    lies exactly thirty days before 2024-07-27 18:00. *)
Definition offset_boundary_festival : dict :=
  {[ "name" := VStr "Jazz Night"; "venue" := VStr "Club Soda";
     "start_date" := VStr "2024-06-27T18:00:00-04:00" ]}.

(** * Properties *)

(** ** The Aggregation Facade *)

(** C1. [get_ongoing_festivals] never returns an empty list: when live
    collection raises, or returns the empty list, the result is the
    hardcoded seed list of five festivals, as it stands; when live
    collection returns a non-empty list, the result is that list. *)
Theorem get_ongoing_festivals_never_empty :
  (forall live, get_ongoing_festivals live <> []) /\
  (forall e, get_ongoing_festivals (Raise e) = _get_fallback_festivals) /\
  get_ongoing_festivals (Ok []) = _get_fallback_festivals /\
  (forall festival rest,
      get_ongoing_festivals (Ok (festival :: rest)) = festival :: rest) /\
  List.length _get_fallback_festivals = 5%nat.
Proof.
  assert (Hseed : _get_fallback_festivals <> []) by (unfold _get_fallback_festivals; discriminate).
  repeat split; try reflexivity.
  intros [[|festival rest]|e]; simpl; try assumption; discriminate.
Qed.

(** ** The Temporal Matcher: day and time resolution *)

Lemma US_PER_DAY_pos : 0 < US_PER_DAY.
Proof. reflexivity. Qed.

Lemma time_of_bounds dt : 0 <= time_of dt < US_PER_DAY.
Proof. unfold time_of. apply Z.mod_pos_bound, US_PER_DAY_pos. Qed.

Lemma date_of_combine d t :
  0 <= t < US_PER_DAY -> date_of (combine d t) = d.
Proof.
  intros Ht. unfold date_of, combine; simpl.
  symmetry. apply (Z.div_unique_pos _ _ _ t); [assumption | ring].
Qed.

Lemma time_of_combine d t :
  0 <= t < US_PER_DAY -> time_of (combine d t) = t.
Proof.
  intros Ht. unfold time_of, combine; simpl.
  symmetry. apply (Z.mod_unique_pos _ _ d t); [assumption | ring].
Qed.

Lemma representable_date_of dt :
  representable dt -> 1 <= date_of dt <= MAXORDINAL.
Proof.
  unfold representable, date_of, MINWALL, MAXWALL. intros [Hlo Hhi].
  pose proof US_PER_DAY_pos as Hpos. split.
  - apply Z.div_le_lower_bound; lia.
  - apply Z.lt_succ_r, Z.div_lt_upper_bound; lia.
Qed.

(** The three named periods are fixed clock times. *)
Lemma strptime_HM_morning :
  strptime_HM "09:00" = Ok (combine (ymd2ord 1900 1 1) (9 * US_PER_HOUR)).
Proof. vm_compute. reflexivity. Qed.

Lemma strptime_HM_afternoon :
  strptime_HM "14:00" = Ok (combine (ymd2ord 1900 1 1) (14 * US_PER_HOUR)).
Proof. vm_compute. reflexivity. Qed.

Lemma strptime_HM_evening :
  strptime_HM "19:00" = Ok (combine (ymd2ord 1900 1 1) (19 * US_PER_HOUR)).
Proof. vm_compute. reflexivity. Qed.

(** Time resolution always produces a time of day. *)
Lemma resolve_time_total now time time_lower :
  exists t, resolve_time now time time_lower = Ok t /\ 0 <= t < US_PER_DAY.
Proof.
  unfold resolve_time.
  rewrite strptime_HM_morning, strptime_HM_afternoon, strptime_HM_evening.
  repeat match goal with |- context [if ?b then _ else _] => destruct b end;
    simpl; eexists; (split; [reflexivity |]); try apply time_of_bounds.
  destruct (strptime_HM time); simpl; apply time_of_bounds.
Qed.

(** What [_parse_datetime] returns once the day and the time resolved. *)
Lemma parse_datetime_resolved tz now day time d time_lower t :
  resolve_day now day (Str.lower day) (Str.lower time) = Ok (d, time_lower) ->
  resolve_time now time time_lower = Ok t ->
  _parse_datetime tz now day time
  = mk_datetime (d * US_PER_DAY + t)
                (Some (utcoffset_at tz (d * US_PER_DAY + t))).
Proof.
  intros Hd Ht. unfold _parse_datetime. rewrite Hd. simpl. rewrite Ht.
  reflexivity.
Qed.

Lemma resolve_day_weekday now name w time_lower :
  In (name, w) weekday_names ->
  resolve_day now name (Str.lower name) time_lower
  = (d ← _get_next_weekday now w; mret (d, time_lower)).
Proof.
  unfold weekday_names. simpl.
  intros H; repeat destruct H as [H | H]; try contradiction;
    injection H as <- <-; reflexivity.
Qed.

(** C5. A named weekday resolves to its next occurrence strictly after
    today: the date [_get_next_weekday] returns lies 1 to 7 days ahead,
    falls on the requested weekday, is never today, and is today + 7 when
    today already is that weekday; [_parse_datetime] resolves each weekday
    name to that date. *)
Theorem next_weekday_strictly_after_today (tz : zone) (now : datetime) (w : Z) :
  0 <= w <= 6 ->
  representable now ->
  date_of now + 7 <= MAXORDINAL ->
  exists d,
    _get_next_weekday now w = Ok d /\
    date_of now + 1 <= d <= date_of now + 7 /\
    weekday d = w /\
    d <> date_of now /\
    (weekday (date_of now) = w -> d = date_of now + 7) /\
    (forall name time,
        In (name, w) weekday_names ->
        date_of (_parse_datetime tz now name time) = d).
Proof.
  intros Hw Hrep Hmax.
  apply representable_date_of in Hrep.
  set (today := date_of now) in *.
  assert (Hwd : 0 <= weekday today < 7) by (apply Z.mod_pos_bound; lia).
  set (ahead := if w - weekday today <=? 0 then w - weekday today + 7
                else w - weekday today).
  assert (Hahead : 1 <= ahead <= 7 /\ (ahead = w - weekday today \/
                                       ahead = w - weekday today + 7)).
  { unfold ahead. destruct (Z.leb_spec (w - weekday today) 0); lia. }
  assert (Hnext : _get_next_weekday now w = Ok (today + ahead)).
  { unfold _get_next_weekday, date_add_days. fold today. fold ahead.
    destruct (Z.leb_spec 1 (today + ahead)); [|lia].
    destruct (Z.leb_spec (today + ahead) MAXORDINAL); [reflexivity | lia]. }
  exists (today + ahead). repeat split; try lia; try assumption.
  - unfold weekday in *. destruct Hahead as [_ [-> | ->]].
    + symmetry. apply (Z.mod_unique_pos _ _ ((today + 6) / 7)); [lia|].
      pose proof (Z.div_mod (today + 6) 7); lia.
    + symmetry. apply (Z.mod_unique_pos _ _ ((today + 6) / 7 + 1)); [lia|].
      pose proof (Z.div_mod (today + 6) 7); lia.
  - intros name time Hin.
    destruct (resolve_time_total now time (Str.lower time)) as (t & Ht & Hrange).
    rewrite (parse_datetime_resolved tz now name time (today + ahead)
               (Str.lower time) t).
    + apply (date_of_combine (today + ahead) t Hrange).
    + rewrite (resolve_day_weekday now name w _ Hin), Hnext. reflexivity.
    + assumption.
Qed.

(** On Monday 2024-07-15 at 09:00, [monday] resolves to 2024-07-22. *)
Lemma next_weekday_monday_witness :
  exists d,
    _get_next_weekday
      (mk_datetime (ymd2ord 2024 7 15 * US_PER_DAY + 9 * US_PER_HOUR)
                   (Some (-4 * US_PER_HOUR))) 0 = Ok d /\
    d = ymd2ord 2024 7 22.
Proof.
  destruct (next_weekday_strictly_after_today America_Montreal
              (mk_datetime (ymd2ord 2024 7 15 * US_PER_DAY + 9 * US_PER_HOUR)
                           (Some (-4 * US_PER_HOUR))) 0)
    as (d & Hd & _ & _ & _ & Hsame & _).
  - lia.
  - unfold representable; vm_compute; split; discriminate.
  - vm_compute; discriminate.
  - exists d. split; [exact Hd|]. rewrite Hsame; reflexivity.
Defined.

(** ** The Category Classifier *)

Lemma startswith_lower p s :
  Str.startswith p s = true ->
  Str.startswith (Str.lower p) (Str.lower s) = true.
Proof.
  revert s. induction p as [|a p IH]; intros [|b s]; simpl; try easy.
  intros [Hab Hps]%andb_true_iff.
  apply Ascii.eqb_eq in Hab as ->.
  rewrite Ascii.eqb_refl. simpl. apply IH, Hps.
Qed.

(** A literal occurrence is an occurrence letter case apart. *)
Lemma is_in_contains_ignoring_case word text :
  Str.is_in word text = true -> contains_ignoring_case word text = true.
Proof.
  unfold contains_ignoring_case.
  induction text as [|c text IH]; intros H.
  - change (Str.startswith word "" || false = true) in H.
    change (Str.startswith (Str.lower word) (Str.lower "") || false = true).
    rewrite orb_false_r in H.
    rewrite (startswith_lower word "" H). reflexivity.
  - change (Str.startswith word (String c text) || Str.is_in word text = true) in H.
    change (Str.startswith (Str.lower word) (Str.lower (String c text))
            || Str.is_in (Str.lower word) (Str.lower text) = true).
    apply orb_true_iff in H as [H | H].
    + rewrite (startswith_lower word (String c text) H). reflexivity.
    + rewrite (IH H). apply orb_true_r.
Qed.

(** C4. [_categorize_event] reads the keyword sets in the order music,
    film, food, art, comedy, dance, by substring match on the lowered text,
    returns the first category whose set matches and [other] when none
    does; a text containing both [jazz] and [gallery] is [music]. *)
Theorem categorize_event_first_match (text : string) :
  _categorize_event text = first_match classifier_table (Str.lower text) /\
  map fst classifier_table = ["music"; "film"; "food"; "art"; "comedy"; "dance"] /\
  (contains_ignoring_case "jazz" text = true ->
   contains_ignoring_case "gallery" text = true ->
   _categorize_event text = "music").
Proof.
  split; [reflexivity | split; [reflexivity |]].
  unfold contains_ignoring_case. intros Hjazz _.
  change (Str.lower "jazz") with "jazz" in Hjazz.
  unfold _categorize_event, Str.any_in. cbn [existsb].
  rewrite Hjazz, !orb_true_r. reflexivity.
Qed.

Lemma categorize_jazz_gallery_witness :
  _categorize_event "Jazz Night at the Gallery" = "music".
Proof.
  apply (categorize_event_first_match "Jazz Night at the Gallery");
    vm_compute; reflexivity.
Defined.

(** ** The Validity Filter *)

Lemma bind_Ok_inv {A B} (m : result A) (k : A -> result B) (b : B) :
  m ≫= k = Ok b -> exists a, m = Ok a /\ k a = Ok b.
Proof. destruct m as [a|e]; simpl; [eauto | discriminate]. Qed.

(** The appending loop is a filter: it keeps the valid festivals in the
    order of its input. *)
Lemma validate_loop_filter now festivals acc :
  validate_loop now festivals acc
  = (acc ++ List.filter (fun f => _is_valid_festival f now) festivals)%list.
Proof.
  revert acc. induction festivals as [|f rest IH]; intros acc; simpl.
  - now rewrite app_nil_r.
  - rewrite IH. destruct (_is_valid_festival f now); [|reflexivity].
    now rewrite <- app_assoc.
Qed.

Lemma validity_filter_filter now festivals :
  validity_filter festivals now
  = List.filter (fun f => _is_valid_festival f now) festivals.
Proof. unfold validity_filter. now rewrite validate_loop_filter. Qed.

(** The outer structure of [_is_valid_festival]. *)
Lemma is_valid_festival_true f now :
  _is_valid_festival f now = true <->
  keys_present f = true /\
  (exists name, f !! "name" = Some name /\ has_length_at_least name 3 = true) /\
  start_in_window f now = Ok true.
Proof.
  unfold _is_valid_festival, has_length_at_least. fold (keys_present f).
  destruct (keys_present f); simpl;
    [|split; [discriminate | intros [? _]; discriminate]].
  unfold getitem. destruct (f !! "name") as [name|]; simpl.
  2:{ split; [discriminate | intros (_ & (? & ? & _) & _); discriminate]. }
  destruct (len name) as [n|e] eqn:Hlen; simpl.
  2:{ split; [discriminate|]. intros (_ & (name' & Hname & H) & _).
      injection Hname as <-. rewrite Hlen in H. discriminate. }
  destruct (Z.ltb_spec n 3) as [Hn|Hn]; simpl.
  - split; [discriminate|]. intros (_ & (name' & Hname & H) & _).
    injection Hname as <-. rewrite Hlen in H. apply Z.leb_le in H. lia.
  - destruct (start_in_window f now) as [[]|] eqn:Hw; simpl.
    + split; [|reflexivity].
      intros _. split; [reflexivity|]. split; [|reflexivity].
      exists name. split; [reflexivity|]. rewrite Hlen. now apply Z.leb_le.
    + split; [discriminate | intros (_ & _ & ?); discriminate].
    + split; [discriminate | intros (_ & _ & ?); discriminate].
Qed.

(** A comparison that succeeded against a naive [now] had a naive start. *)
Lemma start_in_window_inv f now :
  tzinfo now = None ->
  start_in_window f now = Ok true ->
  exists start, start_of f = Some start /\ tzinfo start = None.
Proof.
  intros Hnaive. unfold start_in_window, start_of, getitem.
  destruct (f !! "start_date") as [[| |s|]|]; simpl; try discriminate.
  destruct (fromisoformat _) as [start|]; simpl; [|discriminate].
  intros H. exists start. split; [reflexivity|].
  apply bind_Ok_inv in H as (lo & Hlo & H).
  apply bind_Ok_inv in H as (after_lo & Hcmp & H).
  unfold dt_sub, dt_add in Hlo.
  destruct (_ && _) in Hlo; [|discriminate]. injection Hlo as <-.
  unfold dt_le in Hcmp. simpl in Hcmp. rewrite Hnaive in Hcmp.
  destruct (tzinfo start); [discriminate | reflexivity].
Qed.

(** With a naive [now] whose window bounds exist, the inner [try] succeeds
    exactly on a naive start inside the window, bounds included. *)
Lemma start_in_window_naive f now :
  tzinfo now = None ->
  window_representable now ->
  start_in_window f now = Ok true <->
  exists start, start_of f = Some start /\ tzinfo start = None /\
                in_window now start.
Proof.
  intros Hnaive [Hlo Hhi]. unfold start_in_window, start_of, getitem, in_window.
  pose proof US_PER_DAY_pos as Hpos.
  destruct (f !! "start_date") as [[| |s|]|]; simpl;
    try (split; [discriminate | intros (? & ? & _); discriminate]).
  destruct (fromisoformat _) as [start|]; simpl;
    [|split; [discriminate | intros (? & ? & _); discriminate]].
  unfold dt_sub, dt_add.
  assert (Hr1 : (MINWALL <=? wall now + - timedelta_days 30)
                && (wall now + - timedelta_days 30 <=? MAXWALL) = true).
  { apply andb_true_iff; split; apply Z.leb_le;
      unfold timedelta_days, MINWALL, MAXWALL in *; lia. }
  assert (Hr2 : (MINWALL <=? wall now + timedelta_days 90)
                && (wall now + timedelta_days 90 <=? MAXWALL) = true).
  { apply andb_true_iff; split; apply Z.leb_le;
      unfold timedelta_days, MINWALL, MAXWALL in *; lia. }
  rewrite Hr1, Hr2. simpl. unfold dt_le. simpl. rewrite Hnaive.
  destruct (tzinfo start) as [o|] eqn:Htz; simpl.
  { split; [discriminate|]. intros (start' & Hs & Htz' & _).
    injection Hs as <-. congruence. }
  destruct (Z.leb_spec (wall now + - timedelta_days 30) (wall start)) as [H1|H1];
    simpl.
  - destruct (Z.leb_spec (wall start) (wall now + timedelta_days 90)) as [H2|H2].
    + split; [|reflexivity]. intros _. exists start.
      split; [reflexivity|]. split; [assumption|]. lia.
    + split; [discriminate|]. intros (start' & Hs & _ & Hw).
      injection Hs as <-. lia.
  - split; [discriminate|]. intros (start' & Hs & _ & Hw).
    injection Hs as <-. lia.
Qed.

(** [_is_valid_festival] under a naive clock: the conditions [keeps], on a
    start without offset. *)
Lemma is_valid_festival_naive f now :
  tzinfo now = None ->
  window_representable now ->
  _is_valid_festival f now = true <->
  keeps f now /\ start_is_aware f = false.
Proof.
  intros Hnaive Hrange. rewrite is_valid_festival_true.
  rewrite (start_in_window_naive f now Hnaive Hrange).
  unfold keeps, start_is_aware. split.
  - intros (Hk & Hn & start & Hs & Htz & Hw). rewrite Hs, Htz. eauto 10.
  - intros ((Hk & Hn & start & Hs & Hw) & Ha). rewrite Hs in Ha.
    split; [assumption|]. split; [assumption|].
    exists start. repeat split; try assumption; try apply Hw.
    destruct (tzinfo start); [discriminate | reflexivity].
Qed.

Lemma name_long_enough_spec f :
  name_long_enough f = true <->
  exists name, f !! "name" = Some name /\ has_length_at_least name 3 = true.
Proof.
  unfold name_long_enough. destruct (f !! "name") as [name|].
  - split; [eauto | intros (name' & Hn & H); injection Hn as <-; exact H].
  - split; [discriminate | intros (? & ? & _); discriminate].
Qed.

(** The filter rejects every malformed festival, whatever the clock. *)
Lemma malformed_rejected f now :
  tzinfo now = None -> malformed f -> _is_valid_festival f now = false.
Proof.
  intros Hnaive Hbad.
  destruct (_is_valid_festival f now) eqn:Hv; [|reflexivity].
  apply is_valid_festival_true in Hv as (_ & (name & Hname & Hlen) & Hw).
  apply (start_in_window_inv f now Hnaive) in Hw as (start & Hs & _).
  destruct Hbad as [Hbad | [(name' & Hname' & Hlen') | Hbad]]; congruence.
Qed.

(** C2, as the code has it.  Under a naive clock, a festival whose start
    carries no UTC offset is kept exactly when the keys [name], [venue] and
    [start_date] are present (an empty venue passes), the name has length
    at least 3, the start parses and lies in [now - 30 days, now + 90 days];
    a malformed festival is dropped, the predicate returning false; and the
    filter keeps the surviving festivals in input order. *)
Theorem validity_filter_keeps_iff (now : datetime) :
  tzinfo now = None ->
  window_representable now ->
  (forall f, start_is_aware f = false ->
             (_is_valid_festival f now = true <-> keeps f now)) /\
  (forall f, malformed f -> _is_valid_festival f now = false) /\
  (forall festivals,
      validity_filter festivals now
      = List.filter (fun f => _is_valid_festival f now) festivals).
Proof.
  intros Hnaive Hrange. split; [|split].
  - intros f Haware. rewrite (is_valid_festival_naive f now Hnaive Hrange).
    tauto.
  - intros f. apply malformed_rejected, Hnaive.
  - intros festivals. apply validity_filter_filter.
Qed.

Lemma clock_2024_06_27_13h_representable :
  window_representable clock_2024_06_27_13h.
Proof. unfold window_representable. vm_compute. split; discriminate. Qed.

Lemma validity_filter_keeps_witness :
  _is_valid_festival (hd ∅ _get_fallback_festivals) clock_2024_06_27_13h = true.
Proof.
  apply (proj1 (validity_filter_keeps_iff clock_2024_06_27_13h eq_refl
                  clock_2024_06_27_13h_representable)).
  - vm_compute. reflexivity.
  - split; [vm_compute; reflexivity|]. split.
    + eexists. split; vm_compute; reflexivity.
    + eexists. split; [vm_compute; reflexivity|].
      unfold in_window. vm_compute. split; discriminate.
Defined.

(** C2, as the specification words it, fails: a festival whose venue is the
    empty string is kept, although a required field is empty. *)
Lemma validity_filter_keeps_empty_venue :
  ~ (forall f now,
        tzinfo now = None -> window_representable now ->
        (_is_valid_festival f now = true <-> claimed_keeps f now)).
Proof.
  intros Hclaim.
  destruct (Hclaim empty_venue_festival clock_2024_06_27_13h eq_refl
              clock_2024_06_27_13h_representable) as [Hkeep _].
  destruct Hkeep as (Hfields & _); [vm_compute; reflexivity|].
  vm_compute in Hfields. discriminate.
Qed.

(** On a start without offset the window includes its bounds: a festival
    with the required keys, a name of length at least 3 and such a start is
    accepted when the start is exactly [now - 30 days] or [now + 90 days],
    and rejected at [now - 31 days] and [now + 91 days]. *)
Theorem validity_window_boundary_inclusive (f : dict) (now start : datetime) :
  tzinfo now = None ->
  window_representable now ->
  keys_present f = true ->
  name_long_enough f = true ->
  start_of f = Some start ->
  tzinfo start = None ->
  (wall start = wall now - timedelta_days 30 -> _is_valid_festival f now = true) /\
  (wall start = wall now + timedelta_days 90 -> _is_valid_festival f now = true) /\
  (wall start = wall now - timedelta_days 31 -> _is_valid_festival f now = false) /\
  (wall start = wall now + timedelta_days 91 -> _is_valid_festival f now = false).
Proof.
  intros Hnaive Hrange Hkeys Hname Hstart Htz.
  apply name_long_enough_spec in Hname.
  pose proof US_PER_DAY_pos as Hpos.
  assert (Haware : start_is_aware f = false).
  { unfold start_is_aware. now rewrite Hstart, Htz. }
  assert (Hin : forall w, wall start = w ->
            wall now - timedelta_days 30 <= w <= wall now + timedelta_days 90 ->
            _is_valid_festival f now = true).
  { intros w Hw Hb. apply (is_valid_festival_naive f now Hnaive Hrange).
    split; [|assumption]. split; [assumption|]. split; [assumption|].
    exists start. split; [assumption|]. unfold in_window. lia. }
  assert (Hout : forall w, wall start = w ->
            ~ (wall now - timedelta_days 30 <= w <= wall now + timedelta_days 90) ->
            _is_valid_festival f now = false).
  { intros w Hw Hb. destruct (_is_valid_festival f now) eqn:Hv; [|reflexivity].
    apply (is_valid_festival_naive f now Hnaive Hrange) in Hv
      as ((_ & _ & start' & Hs & Hin') & _).
    rewrite Hstart in Hs. injection Hs as <-. unfold in_window in Hin'. lia. }
  unfold timedelta_days in *.
  repeat split; intros Hw.
  - apply (Hin _ Hw). lia.
  - apply (Hin _ Hw). lia.
  - apply (Hout _ Hw). lia.
  - apply (Hout _ Hw). lia.
Qed.

Lemma clock_2024_07_27_18h_representable :
  window_representable clock_2024_07_27_18h.
Proof. unfold window_representable. vm_compute. split; discriminate. Qed.

(** The first seed festival starts on 2024-06-27 at 18:00: at 18:00 thirty
    days later it is still accepted. *)
Lemma validity_window_boundary_witness :
  _is_valid_festival (hd ∅ _get_fallback_festivals) clock_2024_07_27_18h = true.
Proof.
  apply (proj1 (validity_window_boundary_inclusive
                  (hd ∅ _get_fallback_festivals) clock_2024_07_27_18h
                  (mk_datetime (ymd2ord 2024 6 27 * US_PER_DAY + 18 * US_PER_HOUR) None)
                  eq_refl clock_2024_07_27_18h_representable
                  ltac:(vm_compute; reflexivity) ltac:(vm_compute; reflexivity)
                  ltac:(vm_compute; reflexivity) eq_refl)).
  vm_compute. reflexivity.
Defined.

(** C3. The code breaks the boundary claim on a start that carries a UTC
    offset.  The festival whose start is 2024-06-27T18:00:00-04:00 has the
    required keys and a name of length at least 3, its start parses, and
    the start lies exactly thirty days before the clock 2024-07-27 18:00:
    [_is_valid_festival] rejects it, the aware start not comparing with the
    naive clock. *)
Lemma validity_window_boundary_offset_start_rejected :
  keys_present offset_boundary_festival = true /\
  name_long_enough offset_boundary_festival = true /\
  start_of offset_boundary_festival
  = Some (mk_datetime (ymd2ord 2024 6 27 * US_PER_DAY + 18 * US_PER_HOUR)
                      (Some (-4 * US_PER_HOUR))) /\
  ymd2ord 2024 6 27 * US_PER_DAY + 18 * US_PER_HOUR
  = wall clock_2024_07_27_18h - timedelta_days 30 /\
  tzinfo clock_2024_07_27_18h = None /\
  _is_valid_festival offset_boundary_festival clock_2024_07_27_18h = false.
Proof. repeat split; vm_compute; reflexivity. Qed.

(** ** The seed list through the Validity Filter *)

(** Every seed festival has its keys, a long enough name and a start
    without offset. *)
Lemma seeds_well_formed :
  forallb (fun f => keys_present f && name_long_enough f
                    && negb (start_is_aware f))
          _get_fallback_festivals = true.
Proof. vm_compute. reflexivity. Qed.

(** C9, as the code has it.  When every seed start lies in
    [now - 30 days, now + 90 days], that is when [now] lies in
    [start - 90 days, start + 30 days] for each seed, the Validity Filter
    returns the seed list itself, and so does [get_live_festivals] on it. *)
Theorem seed_list_roundtrip (now : datetime) :
  tzinfo now = None ->
  window_representable now ->
  seeds_in_window now ->
  validity_filter _get_fallback_festivals now = _get_fallback_festivals /\
  get_live_festivals [_get_fallback_festivals] now = _get_fallback_festivals.
Proof.
  intros Hnaive Hrange Hwin.
  assert (Hid : validity_filter _get_fallback_festivals now
                = _get_fallback_festivals).
  { rewrite validity_filter_filter. apply forallb_filter_id.
    apply forallb_forall. intros f Hf.
    pose proof (proj1 (forallb_forall _ _) seeds_well_formed f Hf) as Hwf.
    apply andb_true_iff in Hwf as [Hwf Haware].
    apply andb_true_iff in Hwf as [Hkeys Hname].
    apply negb_true_iff in Haware.
    apply (is_valid_festival_naive f now Hnaive Hrange).
    split; [|assumption]. split; [assumption|].
    split; [now apply name_long_enough_spec|].
    exact (proj1 (List.Forall_forall _ _) Hwin f Hf). }
  split; [exact Hid|].
  unfold get_live_festivals.
  change (concat [_get_fallback_festivals])
    with (_get_fallback_festivals ++ [])%list.
  rewrite app_nil_r, Hid. reflexivity.
Qed.

Lemma clock_2024_07_15_representable : window_representable clock_2024_07_15.
Proof. unfold window_representable. vm_compute. split; discriminate. Qed.

Lemma seed_list_roundtrip_witness :
  validity_filter _get_fallback_festivals clock_2024_07_15
  = _get_fallback_festivals.
Proof.
  apply (seed_list_roundtrip clock_2024_07_15 eq_refl
           clock_2024_07_15_representable).
  unfold seeds_in_window, _get_fallback_festivals.
  repeat (apply List.Forall_cons;
          [eexists; split; [vm_compute; reflexivity|];
           unfold in_window; vm_compute; split; discriminate|]).
  apply List.Forall_nil.
Defined.

(** C9, as the specification words it, fails: on 2024-09-01 the clock lies
    within [start - 30 days, start + 90 days] of every seed start, and the
    filter drops three of the five seed festivals. *)
Lemma seed_list_roundtrip_claimed_window_fails :
  ~ (forall now,
        tzinfo now = None -> window_representable now ->
        Forall (fun f => exists start,
                    start_of f = Some start /\ in_claimed_now_window now start)
               _get_fallback_festivals ->
        validity_filter _get_fallback_festivals now = _get_fallback_festivals).
Proof.
  intros Hclaim.
  assert (Hrange : window_representable clock_2024_09_01).
  { unfold window_representable. vm_compute. split; discriminate. }
  specialize (Hclaim clock_2024_09_01 eq_refl Hrange).
  assert (Hlen : List.length (validity_filter _get_fallback_festivals
                                clock_2024_09_01) = 2%nat)
    by (vm_compute; reflexivity).
  rewrite Hclaim in Hlen; [discriminate|].
  unfold _get_fallback_festivals.
  repeat (apply List.Forall_cons;
          [eexists; split; [vm_compute; reflexivity|];
           unfold in_claimed_now_window; vm_compute; split; discriminate|]).
  apply List.Forall_nil.
Qed.

(** ** Timestamps with a UTC offset *)

Lemma has_char_app p s t :
  has_char p (String.append s t) = has_char p s || has_char p t.
Proof.
  induction s as [|c s IH]; simpl; [reflexivity|].
  now rewrite IH, orb_assoc.
Qed.

Lemma find_char_none c s :
  Str.find_char c s = None -> has_char (fun a => Ascii.eqb a c) s = false.
Proof.
  induction s as [|a s IH]; simpl; [reflexivity|].
  destruct (Ascii.eqb a c); [discriminate|].
  destruct (Str.find_char c s) as [[before after]|]; [discriminate|].
  intros _. now apply IH.
Qed.

Lemma find_tz_none t :
  find_tz t = None -> has_char is_sign t = false.
Proof.
  unfold find_tz.
  destruct (Str.find_char "-" t) as [[? ?]|] eqn:Hminus; [discriminate|].
  destruct (Str.find_char "+" t) as [[? ?]|] eqn:Hplus; [discriminate|].
  intros _. apply find_char_none in Hminus, Hplus.
  induction t as [|a t IH]; simpl in *; [reflexivity|].
  apply orb_false_iff in Hminus as [Hm Hminus].
  apply orb_false_iff in Hplus as [Hp Hplus].
  unfold is_sign, is_minus, is_plus. rewrite Hm, Hp. simpl. now apply IH.
Qed.

(** A time part read without offset holds no sign. *)
Lemma parse_isoformat_time_naive t comps :
  parse_isoformat_time t = Ok (comps, None) -> find_tz t = None.
Proof.
  unfold parse_isoformat_time.
  destruct (_ <? _)%nat; [discriminate|].
  destruct (find_tz t) as [[[timestr tzsign] tzstr]|]; [|reflexivity].
  destruct (parse_hh_mm_ss_ff timestr) as [time_comps|]; simpl; [|discriminate].
  destruct (negb _); [discriminate|].
  destruct (parse_hh_mm_ss_ff tzstr) as [[[[h m] s] us]|]; simpl; [|discriminate].
  destruct (_ && _); simpl; [discriminate|].
  destruct (timezone _); simpl; discriminate.
Qed.

Lemma datetime_new_tzinfo y m d hh mm ss us tz dt :
  datetime_new y m d hh mm ss us tz = Ok dt -> tzinfo dt = tz.
Proof.
  unfold datetime_new.
  destruct (date_new y m d); simpl; [|discriminate].
  destruct (time_new hh mm ss us); simpl; [|discriminate].
  intros [= <-]. reflexivity.
Qed.

(** A naive result of [fromisoformat] had no sign in its time part. *)
Lemma fromisoformat_naive_no_sign r dt :
  fromisoformat r = Ok dt -> tzinfo dt = None ->
  has_char is_sign (Str.slice_from 11 r) = false.
Proof.
  unfold fromisoformat.
  generalize (Str.slice_from 11 r). intros tstr.
  destruct (parse_isoformat_date _) as [[[y m] d]|]; simpl; [|discriminate].
  destruct (String.eqb_spec tstr "") as [-> | _].
  { reflexivity. }
  destruct (parse_isoformat_time _) as [[[[[hh mm] ss] us] tz]|] eqn:Ht; simpl;
    [|discriminate].
  intros Hnew Htz. apply datetime_new_tzinfo in Hnew. subst tz.
  rewrite Htz in Ht. apply parse_isoformat_time_naive in Ht.
  now apply find_tz_none.
Qed.

Lemma digit_val_not_plus c v :
  Str.digit_val c = Some v -> is_plus c = false.
Proof.
  destruct c as [[] [] [] [] [] [] [] []]; vm_compute; congruence.
Qed.

Lemma int_from_no_plus s acc v :
  Str.int_from acc s = Ok v -> has_char is_plus s = false.
Proof.
  revert acc. induction s as [|c s IH]; intros acc; simpl; [reflexivity|].
  destruct (Str.digit_val c) as [d|] eqn:Hd; [|discriminate].
  intros H. rewrite (digit_val_not_plus c d Hd). simpl. eauto.
Qed.

Lemma int_no_plus s v : Str.int s = Ok v -> has_char is_plus s = false.
Proof.
  destruct s; [discriminate|]. unfold Str.int. apply int_from_no_plus.
Qed.

(** A date field that parses has ten characters, none of them a [+]. *)
Lemma parse_isoformat_date_shape dstr ymd :
  parse_isoformat_date dstr = Ok ymd ->
  String.length dstr = 10%nat /\ has_char is_plus dstr = false.
Proof.
  unfold parse_isoformat_date.
  destruct (Str.int (Str.slice_to 4 dstr)) as [year|] eqn:Hy; simpl; [|discriminate].
  destruct (String.eqb_spec (substring 4 1 dstr) "-") as [Hs1|]; simpl; [|discriminate].
  destruct (Str.int (substring 5 2 dstr)) as [month|] eqn:Hm; simpl; [|discriminate].
  destruct (String.eqb_spec (substring 7 1 dstr) "-") as [Hs2|]; simpl; [|discriminate].
  destruct (Str.int (substring 8 2 dstr)) as [day|] eqn:Hd; simpl; [|discriminate].
  destruct (Nat.eqb_spec (String.length dstr) 10) as [Hlen|]; simpl; [|discriminate].
  intros _. split; [assumption|].
  apply int_no_plus in Hy, Hm, Hd.
  destruct dstr as [|c0 [|c1 [|c2 [|c3 [|c4 [|c5 [|c6 [|c7 [|c8 [|c9 [|]]]]]]]]]]];
    try discriminate.
  cbn in Hy, Hm, Hd, Hs1, Hs2 |- *.
  injection Hs1 as ->. injection Hs2 as ->.
  repeat match goal with
         | H : _ || _ = false |- _ => apply orb_false_iff in H as [? H]
         end.
  repeat match goal with H : is_plus _ = false |- _ => rewrite H; clear H end.
  reflexivity.
Qed.

(** The characters of [s] before the first [Z] pass through [replace]
    unchanged: a prefix of the result without [+] is the prefix of [s]. *)
Lemma replace_Z_prefix n s :
  String.length (Str.slice_to n (Str.replace "Z" "+00:00" s)) = n ->
  has_char is_plus (Str.slice_to n (Str.replace "Z" "+00:00" s)) = false ->
  Str.slice_from n (Str.replace "Z" "+00:00" s)
  = Str.replace "Z" "+00:00" (Str.slice_from n s).
Proof.
  unfold Str.slice_to. revert s.
  induction n as [|n IH]; intros s; [reflexivity|].
  destruct s as [|c s]; [discriminate|].
  cbn [Str.replace]. destruct (Ascii.eqb c "Z").
  - cbn. discriminate.
  - cbn. intros [= Hlen] [_ Hplus]%orb_false_iff. now apply IH.
Qed.

Lemma slice_from_S n s :
  Str.slice_from (S n) s = Str.slice_from 1 (Str.slice_from n s).
Proof.
  revert s. induction n as [|n IH]; intros [|c s]; try reflexivity.
  change (Str.slice_from (S (S n)) (String c s)) with (Str.slice_from (S n) s).
  change (Str.slice_from (S n) (String c s)) with (Str.slice_from n s).
  apply IH.
Qed.

(** An offset mark in [s] leaves a sign in the rewritten string. *)
Lemma replace_Z_keeps_sign s :
  has_char is_offset_mark s = true ->
  has_char is_sign (Str.replace "Z" "+00:00" s) = true.
Proof.
  induction s as [|c s IH]; simpl; [discriminate|].
  unfold is_offset_mark at 1.
  destruct (Ascii.eqb c "Z"); [reflexivity|]. simpl.
  destruct (is_sign c); [reflexivity|]. simpl. exact IH.
Qed.

(** C10. Under the naive clock of [get_live_festivals], a festival whose
    start timestamp carries a UTC offset, [Z] or [+HH:MM] or [-HH:MM] in
    its time part, is rejected whatever its start and the clock are: the
    aware start does not compare with the naive clock, and the failure
    branch answers false. *)
Theorem offset_start_always_rejected (f : dict) (now : datetime) (s : string) :
  tzinfo now = None ->
  f !! "start_date" = Some (VStr s) ->
  carries_utc_offset s = true ->
  _is_valid_festival f now = false.
Proof.
  intros Hnaive Hs Hmark.
  destruct (_is_valid_festival f now) eqn:Hv; [exfalso | reflexivity].
  apply is_valid_festival_true in Hv as (_ & _ & Hw).
  apply (start_in_window_inv f now Hnaive) in Hw as (start & Hstart & Htz).
  unfold start_of in Hstart. rewrite Hs in Hstart.
  set (r := Str.replace "Z" "+00:00" s) in *.
  destruct (fromisoformat r) as [dt|] eqn:Hiso; [|discriminate].
  injection Hstart as ->.
  pose proof (fromisoformat_naive_no_sign r start Hiso Htz) as Hnosign.
  unfold fromisoformat in Hiso.
  destruct (parse_isoformat_date (Str.slice_to 10 r)) as [ymd|] eqn:Hdate;
    [|discriminate].
  apply parse_isoformat_date_shape in Hdate as [Hlen Hplus].
  assert (Hlen' : String.length (Str.slice_to 10 r) = 10%nat) by exact Hlen.
  pose proof (replace_Z_prefix 10 s Hlen' Hplus) as Hrest. fold r in Hrest.
  unfold carries_utc_offset in Hmark.
  rewrite slice_from_S in Hnosign, Hmark. rewrite Hrest in Hnosign.
  destruct (Str.slice_from 10 s) as [|c u]; [discriminate|].
  change (Str.slice_from 1 (String c u)) with u in Hmark.
  apply replace_Z_keeps_sign in Hmark.
  set (u' := Str.replace "Z" "+00:00" u) in *.
  destruct (Ascii.eqb c "Z") eqn:Hc.
  - change (Str.replace "Z" "+00:00" (String c u))
      with (if Ascii.eqb c "Z" then String.append "+00:00" u' else String c u')
      in Hnosign.
    rewrite Hc in Hnosign.
    change (Str.slice_from 1 (String.append "+00:00" u'))
      with (String.append "00:00" u') in Hnosign.
    rewrite has_char_app, Hmark, orb_true_r in Hnosign. discriminate.
  - change (Str.replace "Z" "+00:00" (String c u))
      with (if Ascii.eqb c "Z" then String.append "+00:00" u' else String c u')
      in Hnosign.
    rewrite Hc in Hnosign.
    change (Str.slice_from 1 (String c u')) with u' in Hnosign.
    congruence.
Qed.

Lemma offset_start_rejected_witness :
  _is_valid_festival ticketmaster_festival clock_2024_06_27_13h = false.
Proof.
  apply (offset_start_always_rejected ticketmaster_festival
           clock_2024_06_27_13h "2024-06-27T18:00:00Z");
    vm_compute; reflexivity.
Defined.

(** ** The Criteria Parser and the Temporal Matcher on [music tonight] *)

(** C7, as the code has it.  On [music tonight] the Criteria Parser yields
    the category [music], the day token [tonight] and the time of day
    inferred from the current hour; the Temporal Matcher, given the day
    [tonight] with any time token, forces the evening and resolves to
    today's date at 19:00 in the local zone. *)
Theorem music_tonight_resolves_to_today_19h (tz : zone) (now now' : datetime) :
  _parse_user_input now "music tonight"
  = ("music", "tonight", infer_time (hour now)) /\
  (forall time,
      let target := _parse_datetime tz now' "tonight" time in
      date_of target = date_of now' /\
      time_of target = 19 * US_PER_HOUR /\
      tzinfo target = Some (utcoffset_at tz (wall target))).
Proof.
  split; [reflexivity|]. intros time target.
  assert (Ht : 0 <= 19 * US_PER_HOUR < US_PER_DAY)
    by (vm_compute; split; [discriminate | reflexivity]).
  assert (Htarget :
            target
            = mk_datetime (date_of now' * US_PER_DAY + 19 * US_PER_HOUR)
                (Some (utcoffset_at tz
                         (date_of now' * US_PER_DAY + 19 * US_PER_HOUR)))).
  { apply (parse_datetime_resolved tz now' "tonight" time (date_of now')
             "evening" (19 * US_PER_HOUR)); reflexivity. }
  rewrite Htarget. repeat split.
  - apply (date_of_combine (date_of now') _ Ht).
  - apply (time_of_combine (date_of now') _ Ht).
Qed.

(** C7, as the specification words it, fails: at 09:00 the parser returns
    the time [morning] for [music tonight], not [evening]. *)
Lemma music_tonight_parser_time_not_forced :
  ~ (forall now, exists day,
        _parse_user_input now "music tonight" = ("music", day, "evening")).
Proof.
  intros Hclaim. destruct (Hclaim clock_wednesday_9h) as [day Hday].
  vm_compute in Hday. discriminate.
Qed.

(** ** Matching festivals to criteria *)

Lemma category_matches_well_formed category f :
  well_formed f = true ->
  category_matches category f = Ok (matches_category category f).
Proof.
  unfold well_formed, category_matches, matches_category, getitem, dict_get,
    name_text, category_text, contains_ignoring_case.
  destruct (f !! "name") as [[| |name|]|]; try discriminate.
  destruct (f !! "category") as [[| |cat|]|]; try discriminate; intros _; simpl;
    destruct (Str.is_in (Str.lower category) (Str.lower name)); reflexivity.
Qed.

Lemma category_loop_filter category festivals acc :
  forallb well_formed festivals = true ->
  category_loop category festivals acc
  = Ok (acc ++ List.filter (matches_category category) festivals)%list.
Proof.
  revert acc. induction festivals as [|f rest IH]; intros acc; simpl.
  - intros _. now rewrite app_nil_r.
  - intros [Hf Hrest]%andb_true_iff.
    rewrite (category_matches_well_formed category f Hf). simpl.
    rewrite (IH _ Hrest). destruct (matches_category category f); [|reflexivity].
    now rewrite <- app_assoc.
Qed.

Lemma criteria_loop_filter tz category target festivals acc :
  forallb well_formed festivals = true ->
  criteria_loop tz category target festivals acc
  = Ok (acc ++ List.filter (matches_category category) festivals)%list.
Proof.
  revert acc. induction festivals as [|f rest IH]; intros acc; simpl.
  - intros _. now rewrite app_nil_r.
  - intros [Hf Hrest]%andb_true_iff.
    rewrite (category_matches_well_formed category f Hf). simpl.
    rewrite (IH _ Hrest). destruct (matches_category category f); [|reflexivity].
    now rewrite <- app_assoc.
Qed.

(** C8. Whatever the day and the time asked for, the matching step returns
    exactly the festivals whose name or category field contains the
    category, letter case apart, in their order: a festival that matches
    the category is included, inside the requested time or not. *)
Theorem criteria_matching_by_category_only (tz : zone) (now : datetime)
    (festivals : list dict) (category day time : string) :
  forallb well_formed festivals = true ->
  get_festivals_by_criteria tz now festivals category day time
  = List.filter (matches_category category) festivals /\
  (forall f, In f festivals -> matches_category category f = true ->
             In f (get_festivals_by_criteria tz now festivals category day time)).
Proof.
  intros Hwf.
  assert (Heq : get_festivals_by_criteria tz now festivals category day time
                = List.filter (matches_category category) festivals).
  { unfold get_festivals_by_criteria.
    destruct (_ && _).
    - rewrite (category_loop_filter category festivals [] Hwf). reflexivity.
    - rewrite (criteria_loop_filter tz category _ festivals [] Hwf).
      reflexivity. }
  split; [exact Heq|].
  intros f Hin Hmatch. rewrite Heq. apply filter_In. now split.
Qed.

(** The comedy festival of the seed list runs in July 2024: asked for
    comedy on the morning of 2024-01-01, the matching step returns it. *)
Lemma criteria_matching_witness :
  In (nth 2 _get_fallback_festivals ∅)
     (get_festivals_by_criteria America_Montreal clock_wednesday_9h
        _get_fallback_festivals "comedy" "2024-01-01" "morning") /\
  _is_festival_at_time America_Montreal (nth 2 _get_fallback_festivals ∅)
    (_parse_datetime America_Montreal clock_wednesday_9h "2024-01-01" "morning")
  = false.
Proof.
  split.
  - apply (criteria_matching_by_category_only America_Montreal
             clock_wednesday_9h _get_fallback_festivals
             "comedy" "2024-01-01" "morning").
    + vm_compute. reflexivity.
    + unfold _get_fallback_festivals. cbn [nth]. right. right. left. reflexivity.
    + vm_compute. reflexivity.
  - vm_compute. reflexivity.
Defined.

(** ** The Temporal Matcher: containment *)

Lemma ensure_aware_eq tz dt : ensure_aware tz dt = Ok (aware tz dt).
Proof.
  unfold ensure_aware, aware, localize.
  destruct (tzinfo dt); reflexivity.
Qed.

Lemma dt_le_aware tz a b :
  dt_le (aware tz a) (aware tz b)
  = Ok (instant (aware tz a) <=? instant (aware tz b)).
Proof.
  unfold dt_le, instant, aware.
  destruct (tzinfo a) eqn:Ha, (tzinfo b) eqn:Hb; simpl;
    rewrite ?Ha, ?Hb; reflexivity.
Qed.

(** The containment check in terms of the two instants of the festival. *)
Lemma is_festival_at_time_spec tz f target :
  _is_festival_at_time tz f target = true <->
  exists s e,
    festival_instant tz f "start_date" = Some s /\
    festival_instant tz f "end_date" = Some e /\
    s <= instant (aware tz target) <= e.
Proof.
  unfold _is_festival_at_time, festival_at_time_body, festival_instant, getitem.
  destruct (f !! "start_date") as [[| |ss|]|]; simpl;
    try (split; [discriminate | intros (s0 & e0 & Hs & _); discriminate]).
  destruct (f !! "end_date") as [[| |es|]|]; simpl;
    try (split; [discriminate | intros (s0 & e0 & _ & He & _); discriminate]).
  destruct (parse_festival_date tz (Str.replace "Z" "+00:00" ss)) as [sd|x]; simpl;
    [|split; [discriminate | intros (s0 & e0 & Hs & _); discriminate]].
  destruct (parse_festival_date tz (Str.replace "Z" "+00:00" es)) as [ed|x]; simpl;
    [|split; [discriminate | intros (s0 & e0 & _ & He & _); discriminate]].
  rewrite !ensure_aware_eq. simpl. rewrite !dt_le_aware. simpl.
  destruct (Z.leb_spec (instant (aware tz sd)) (instant (aware tz target)))
    as [H1|H1]; simpl.
  - destruct (Z.leb_spec (instant (aware tz target)) (instant (aware tz ed)))
      as [H2|H2].
    + split; [|reflexivity]. intros _. eexists _, _. eauto.
    + split; [discriminate|]. intros (s0 & e0 & Hs & He & Hb).
      injection Hs as <-. injection He as <-. lia.
  - split; [discriminate|]. intros (s0 & e0 & Hs & He & Hb).
    injection Hs as <-. injection He as <-. lia.
Qed.



(** * Further properties of the code *)

(** ** [_get_nearest_metro] and [_categorize_event] *)

Lemma station_loop_default items address_lower :
  Forall (fun item => snd item <> "Multiple stations") items ->
  station_loop items address_lower = "Multiple stations" <->
  forallb (fun item => negb (Str.is_in (fst item) address_lower)) items = true.
Proof.
  induction 1 as [|[location station] items Hne _ IH]; simpl; [tauto|].
  destruct (Str.is_in location address_lower); simpl.
  - split; [intros ->; now destruct Hne | discriminate].
  - exact IH.
Qed.

Lemma station_loop_range items address_lower :
  In (station_loop items address_lower)
     ("Multiple stations" :: map snd items).
Proof.
  induction items as [|[location station] items IH]; simpl; [now left|].
  destruct (Str.is_in location address_lower); [right; now left|].
  destruct IH as [IH | IH]; [now left | right; now right].
Qed.

(** X1. [_get_nearest_metro] answers [Multiple stations] exactly when none
    of the eight locations of its table occurs in the address, letter case
    apart; in every other case it answers the station of a table entry. *)
Theorem nearest_metro_default_iff_no_location (address : string) :
  (_get_nearest_metro address = "Multiple stations" <->
   no_known_location address = true) /\
  In (_get_nearest_metro address)
     ["Multiple stations"; "Place-des-Arts"; "Place-d'Armes"; "Jean-Drapeau";
      "Berri-UQAM"; "McGill"; "Sherbrooke"; "Laurier"].
Proof.
  split.
  - apply station_loop_default. unfold metro_stations.
    repeat (apply List.Forall_cons; [discriminate|]). apply List.Forall_nil.
  - pose proof (station_loop_range metro_stations (Str.lower address)) as H.
    unfold _get_nearest_metro. simpl in H |- *.
    repeat (destruct H as [H | H]; [rewrite <- H; tauto|]). contradiction.
Qed.

(** X2. The table of [_get_nearest_metro] is read in its order: an address
    that names the Quartier des Spectacles gets [Place-des-Arts] whatever
    else it names, and an address that names the Old Port and neither the
    Quartier des Spectacles nor the Place des Arts gets [Place-d'Armes]. *)
Theorem nearest_metro_first_location_wins (address : string) :
  (contains_ignoring_case "quartier des spectacles" address = true ->
   _get_nearest_metro address = "Place-des-Arts") /\
  (contains_ignoring_case "quartier des spectacles" address = false ->
   contains_ignoring_case "place des arts" address = false ->
   contains_ignoring_case "old port" address = true ->
   _get_nearest_metro address = "Place-d'Armes").
Proof.
  unfold contains_ignoring_case.
  change (Str.lower "quartier des spectacles") with "quartier des spectacles".
  change (Str.lower "place des arts") with "place des arts".
  change (Str.lower "old port") with "old port".
  unfold _get_nearest_metro, metro_stations. cbn [station_loop]. split.
  - intros ->. reflexivity.
  - intros -> -> ->. reflexivity.
Qed.

Lemma nearest_metro_first_location_witness :
  _get_nearest_metro "Old Port, near the Quartier des Spectacles"
  = "Place-des-Arts".
Proof.
  apply (proj1 (nearest_metro_first_location_wins
                  "Old Port, near the Quartier des Spectacles")).
  vm_compute. reflexivity.
Defined.

(** X3. The keyword [festival] sits in the first keyword set, so every
    name that contains it, letter case apart, is categorized [music],
    whatever other keywords the name holds. *)
Theorem categorize_festival_is_music (name : string) :
  contains_ignoring_case "festival" name = true ->
  _categorize_event name = "music".
Proof.
  unfold contains_ignoring_case.
  change (Str.lower "festival") with "festival". intros H.
  unfold _categorize_event, Str.any_in. cbn [existsb].
  rewrite H, !orb_true_r. reflexivity.
Qed.

(** The comedy festival of the seed list, whose category field is
    [comedy], is [music] for the classifier. *)
Lemma categorize_festival_witness :
  _categorize_event "Just for Laughs Comedy Festival" = "music".
Proof.
  apply (categorize_festival_is_music "Just for Laughs Comedy Festival").
  vm_compute. reflexivity.
Defined.

Lemma first_match_other table text_lower :
  Forall (fun entry => fst entry <> "other") table ->
  first_match table text_lower = "other" <->
  forallb (fun entry => negb (Str.any_in (snd entry) text_lower)) table = true.
Proof.
  induction 1 as [|[category keywords] table Hne _ IH]; simpl; [tauto|].
  destruct (Str.any_in keywords text_lower); simpl.
  - split; [intros ->; now destruct Hne | discriminate].
  - exact IH.
Qed.

Lemma first_match_range table text_lower :
  In (first_match table text_lower) ("other" :: map fst table).
Proof.
  induction table as [|[category keywords] table IH]; simpl; [now left|].
  destruct (Str.any_in keywords text_lower); [right; now left|].
  destruct IH as [IH | IH]; [now left | right; now right].
Qed.

(** X4. [_categorize_event] always answers one of the seven categories,
    and answers [other] exactly when no keyword of any of the six keyword
    sets occurs in the name, letter case apart. *)
Theorem categorize_event_other_iff_no_keyword (name : string) :
  In (_categorize_event name)
     ["other"; "music"; "film"; "food"; "art"; "comedy"; "dance"] /\
  (_categorize_event name = "other" <-> no_category_keyword name = true).
Proof.
  change (_categorize_event name)
    with (first_match classifier_table (Str.lower name)).
  split.
  - apply (first_match_range classifier_table).
  - apply first_match_other. unfold classifier_table.
    repeat (apply List.Forall_cons; [discriminate|]). apply List.Forall_nil.
Qed.

(** ** [get_live_festivals] *)

(** A timestamp that parses to a naive datetime carries no offset mark. *)
Lemma naive_parse_carries_no_offset s start :
  fromisoformat (Str.replace "Z" "+00:00" s) = Ok start ->
  tzinfo start = None ->
  carries_utc_offset s = false.
Proof.
  intros Hiso Htz.
  destruct (carries_utc_offset s) eqn:Hmark; [exfalso | reflexivity].
  set (r := Str.replace "Z" "+00:00" s) in *.
  pose proof (fromisoformat_naive_no_sign r start Hiso Htz) as Hnosign.
  unfold fromisoformat in Hiso.
  destruct (parse_isoformat_date (Str.slice_to 10 r)) as [ymd|] eqn:Hdate;
    [|discriminate].
  apply parse_isoformat_date_shape in Hdate as [Hlen Hplus].
  pose proof (replace_Z_prefix 10 s Hlen Hplus) as Hrest. fold r in Hrest.
  unfold carries_utc_offset in Hmark.
  rewrite slice_from_S in Hnosign, Hmark. rewrite Hrest in Hnosign.
  destruct (Str.slice_from 10 s) as [|c u]; [discriminate|].
  change (Str.slice_from 1 (String c u)) with u in Hmark.
  apply replace_Z_keeps_sign in Hmark.
  set (u' := Str.replace "Z" "+00:00" u) in *.
  change (Str.replace "Z" "+00:00" (String c u))
    with (if Ascii.eqb c "Z" then String.append "+00:00" u' else String c u')
    in Hnosign.
  destruct (Ascii.eqb c "Z").
  - change (Str.slice_from 1 (String.append "+00:00" u'))
      with (String.append "00:00" u') in Hnosign.
    rewrite has_char_app, Hmark, orb_true_r in Hnosign. discriminate.
  - change (Str.slice_from 1 (String c u')) with u' in Hnosign. congruence.
Qed.

Lemma start_carries_offset_invalid f now :
  tzinfo now = None ->
  start_carries_offset f = true ->
  _is_valid_festival f now = false.
Proof.
  intros Hnaive Hoff.
  destruct (_is_valid_festival f now) eqn:Hv; [exfalso | reflexivity].
  apply is_valid_festival_true in Hv as (_ & _ & Hw).
  apply (start_in_window_inv f now Hnaive) in Hw as (start & Hstart & Htz).
  unfold start_carries_offset in Hoff. unfold start_of in Hstart.
  destruct (f !! "start_date") as [[| |s|]|]; try discriminate.
  destruct (fromisoformat _) as [dt|] eqn:Hiso; [|discriminate].
  injection Hstart as ->.
  rewrite (naive_parse_carries_no_offset s start Hiso Htz) in Hoff.
  discriminate.
Qed.

Lemma filter_take_valid {A} (p : A -> bool) n l :
  List.filter p (take n (List.filter p l)) = take n (List.filter p l).
Proof.
  apply forallb_filter_id. apply forallb_forall. intros x Hx.
  assert (Hin : In x (List.filter p l)).
  { apply list_elem_of_In, (subseteq_take n), list_elem_of_In, Hx. }
  now apply filter_In in Hin.
Qed.

(** X5. [get_live_festivals] returns at most 50 festivals; each of them
    passed [_is_valid_festival]; and the result is a subsequence of what
    the adapters returned, taken adapter after adapter: nothing is added
    and the order is kept. *)
Theorem get_live_festivals_bounded_valid_ordered
    (adapters : list (list dict)) (now : datetime) :
  (List.length (get_live_festivals adapters now) <= 50)%nat /\
  List.Forall (fun f => _is_valid_festival f now = true)
              (get_live_festivals adapters now) /\
  get_live_festivals adapters now `sublist_of` concat adapters.
Proof.
  unfold get_live_festivals. rewrite validity_filter_filter.
  split; [apply firstn_le_length | split].
  - apply List.Forall_forall. intros f Hf.
    apply list_elem_of_In, (subseteq_take 50), list_elem_of_In in Hf.
    now apply filter_In in Hf.
  - etransitivity; [apply sublist_take|].
    generalize (concat adapters). intros l.
    induction l as [|f l IH]; simpl; [constructor|].
    destruct (_is_valid_festival f now); now constructor.
Qed.

(** X6. Collecting again from what [get_live_festivals] returned, under
    the same clock, changes nothing: the result holds only valid
    festivals and at most 50 of them. *)
Theorem get_live_festivals_idempotent
    (adapters : list (list dict)) (now : datetime) :
  get_live_festivals [get_live_festivals adapters now] now
  = get_live_festivals adapters now.
Proof.
  unfold get_live_festivals at 1.
  change (concat [get_live_festivals adapters now])
    with (get_live_festivals adapters now ++ [])%list.
  rewrite app_nil_r. unfold get_live_festivals.
  rewrite !validity_filter_filter, filter_take_valid. apply take_idemp.
Qed.

(** X7. When every festival the adapters returned has a start with a UTC
    offset, as the events of Ticketmaster and Eventbrite do, the filter of
    [get_live_festivals] empties the list under its naive clock, and
    [get_ongoing_festivals] answers with the seed list. *)
Theorem utc_starts_fall_back_to_seeds
    (adapters : list (list dict)) (now : datetime) :
  tzinfo now = None ->
  forallb start_carries_offset (concat adapters) = true ->
  get_live_festivals adapters now = [] /\
  get_ongoing_festivals (Ok (get_live_festivals adapters now))
  = _get_fallback_festivals.
Proof.
  intros Hnaive Hall.
  assert (Hempty : get_live_festivals adapters now = []).
  { unfold get_live_festivals. rewrite validity_filter_filter.
    revert Hall. generalize (concat adapters). intros l.
    induction l as [|f l IH]; simpl; [reflexivity|].
    intros [Hf Hl]%andb_true_iff.
    rewrite (start_carries_offset_invalid f now Hnaive Hf). now apply IH. }
  split; [exact Hempty|]. rewrite Hempty. reflexivity.
Qed.

Lemma utc_starts_fall_back_witness :
  get_ongoing_festivals
    (Ok (get_live_festivals utc_adapter_outputs clock_2024_06_27_13h))
  = _get_fallback_festivals.
Proof.
  apply (utc_starts_fall_back_to_seeds utc_adapter_outputs
           clock_2024_06_27_13h eq_refl).
  vm_compute. reflexivity.
Defined.

(** ** The Criteria Parser *)

Lemma entry_of_word_In table word key :
  entry_of_word table word = Some key -> In key (map fst table).
Proof.
  induction table as [|[k keywords] table IH]; simpl; [discriminate|].
  destruct (Str.in_list word keywords).
  - intros [= ->]. now left.
  - intros H. right. now apply IH.
Qed.

Lemma scan_words_In table words key :
  scan_words table words = Some key -> In key (map fst table).
Proof.
  induction words as [|word words IH]; simpl; [discriminate|].
  destruct (entry_of_word table word) as [k|] eqn:Hk.
  - intros [= ->]. now apply entry_of_word_In in Hk.
  - exact IH.
Qed.

Lemma infer_category_range input_lower :
  In (infer_category input_lower "music") category_tokens.
Proof.
  unfold infer_category, category_tokens.
  repeat match goal with |- context [if ?b then _ else _] => destruct b end;
    simpl; tauto.
Qed.

Lemma infer_time_range h : In (infer_time h) time_tokens.
Proof.
  unfold infer_time, time_tokens.
  repeat match goal with |- context [if ?b then _ else _] => destruct b end;
    simpl; tauto.
Qed.

(** X8. Whatever the input and the clock, [_parse_user_input] returns a
    category among music, film, food, art, comedy and dance, a day among
    its ten day tokens and a time among morning, afternoon, evening and
    night: no input is refused and no other token comes out. *)
Theorem parse_user_input_canonical (now : datetime) (user_input : string) :
  In (fst (fst (_parse_user_input now user_input))) category_tokens /\
  In (snd (fst (_parse_user_input now user_input))) day_tokens /\
  In (snd (_parse_user_input now user_input)) time_tokens.
Proof.
  unfold _parse_user_input. cbn [fst snd]. repeat split.
  - destruct (scan_words category_keywords _) as [cat|] eqn:H.
    + exact (scan_words_In _ _ _ H).
    + apply infer_category_range.
  - destruct (scan_words day_keywords _) as [day|] eqn:H.
    + exact (scan_words_In _ _ _ H).
    + simpl. tauto.
  - destruct (scan_words time_keywords _) as [time|] eqn:H.
    + pose proof (scan_words_In _ _ _ H) as Hin. exact Hin.
    + apply infer_time_range.
Qed.

Lemma entry_of_time_word_none word :
  entry_of_word time_keywords word = None ->
  Str.in_list word named_times = false.
Proof.
  unfold time_keywords, named_times. cbn [entry_of_word].
  unfold Str.in_list. cbn [existsb].
  destruct (String.eqb word "morning"), (String.eqb word "am"),
    (String.eqb word "afternoon"), (String.eqb word "pm"),
    (String.eqb word "evening"), (String.eqb word "night");
    simpl; discriminate || reflexivity.
Qed.

Lemma entry_of_word_not_night word :
  entry_of_word time_keywords word <> Some "night".
Proof.
  unfold time_keywords. cbn [entry_of_word].
  unfold Str.in_list. cbn [existsb].
  destruct (String.eqb word "morning"), (String.eqb word "am"),
    (String.eqb word "afternoon"), (String.eqb word "pm"),
    (String.eqb word "evening"), (String.eqb word "night");
    simpl; discriminate.
Qed.

Lemma scan_time_words_none words :
  scan_words time_keywords words = None ->
  forall word, In word words -> Str.in_list word named_times = false.
Proof.
  induction words as [|w words IH]; cbn [scan_words In]; [contradiction|].
  destruct (entry_of_word time_keywords w) as [k|] eqn:Hk; [discriminate|].
  intros Hnone word [<- | Hin]; [|now apply IH].
  now apply entry_of_time_word_none.
Qed.

Lemma scan_time_words_not_night words :
  scan_words time_keywords words <> Some "night".
Proof.
  induction words as [|w words IH]; cbn [scan_words]; [discriminate|].
  destruct (entry_of_word time_keywords w) as [k|] eqn:Hk; [|exact IH].
  intros Heq. injection Heq as ->. exact (entry_of_word_not_night w Hk).
Qed.

(** X9. The entry [night] of the time table is never reached: the word
    [night] belongs to the entry [evening], read first.  So when
    [_parse_user_input] returns the time [night], the input holds none of
    the time words, [night] included, and the hour of the clock lies
    outside 6 to 21. *)
Theorem parse_user_input_night_only_by_hour (now : datetime) (user_input : string) :
  snd (_parse_user_input now user_input) = "night" ->
  (forall word, In word (Str.split (Str.lower user_input)) ->
                Str.in_list word named_times = false) /\
  (hour now < 6 \/ 22 <= hour now).
Proof.
  unfold _parse_user_input. cbn [snd].
  destruct (scan_words time_keywords _) as [time|] eqn:Hscan.
  - intros ->. now destruct (scan_time_words_not_night _ Hscan).
  - intros Hnight. split; [now apply scan_time_words_none|].
    unfold infer_time in Hnight.
    destruct (Z.leb_spec 6 (hour now)), (Z.ltb_spec (hour now) 12),
      (Z.leb_spec 12 (hour now)), (Z.ltb_spec (hour now) 17),
      (Z.leb_spec 17 (hour now)), (Z.ltb_spec (hour now) 22);
      simpl in Hnight; try discriminate; lia.
Qed.

Lemma parse_user_input_night_witness :
  hour clock_saturday_23h < 6 \/ 22 <= hour clock_saturday_23h.
Proof.
  apply (parse_user_input_night_only_by_hour clock_saturday_23h "jazz saturday").
  vm_compute. reflexivity.
Defined.

(** ** The Temporal Matcher on the parser's tokens *)

Lemma next_weekday_range now w :
  0 <= w <= 6 ->
  1 <= date_of now -> date_of now + 7 <= MAXORDINAL ->
  exists d, _get_next_weekday now w = Ok d /\
            date_of now + 1 <= d <= date_of now + 7.
Proof.
  intros Hw Hlo Hhi. unfold _get_next_weekday, date_add_days.
  set (today := date_of now) in *.
  assert (Hwd : 0 <= weekday today < 7) by (apply Z.mod_pos_bound; lia).
  destruct (Z.leb_spec (w - weekday today) 0);
    (destruct (Z.leb_spec 1 (today + (w - weekday today + 7)));
     destruct (Z.leb_spec 1 (today + (w - weekday today)));
     destruct (Z.leb_spec (today + (w - weekday today + 7)) MAXORDINAL);
     destruct (Z.leb_spec (today + (w - weekday today)) MAXORDINAL);
     simpl; try lia; eexists; (split; [reflexivity | lia])).
Qed.

Lemma date_of_next_day now :
  date_of (mk_datetime (wall now + timedelta_days 1) (tzinfo now))
  = date_of now + 1.
Proof.
  unfold date_of, timedelta_days. simpl.
  apply Z.div_add. discriminate.
Qed.

(** Each day token of the parser resolves, within the week ahead. *)
Lemma resolve_day_token now day time_lower :
  In day day_tokens ->
  representable now -> date_of now + 7 <= MAXORDINAL ->
  exists d time_lower',
    resolve_day now day (Str.lower day) time_lower = Ok (d, time_lower') /\
    date_of now <= d <= date_of now + 7 /\
    (time_lower' = time_lower \/ time_lower' = "evening").
Proof.
  intros Hday Hrep Hmax.
  pose proof (representable_date_of now Hrep) as [Hlo _].
  assert (Hweek : forall w, 0 <= w <= 6 ->
            exists d time_lower',
              (d ← _get_next_weekday now w; mret (d, time_lower))
              = Ok (d, time_lower') /\
              date_of now <= d <= date_of now + 7 /\
              (time_lower' = time_lower \/ time_lower' = "evening")).
  { intros w Hw.
    destruct (next_weekday_range now w Hw Hlo Hmax) as (d & -> & Hd).
    exists d, time_lower. simpl. repeat split; try lia. now left. }
  unfold day_tokens in Hday. simpl in Hday.
  destruct Hday as [<- | [<- | [<- | Hday]]].
  - exists (date_of now), time_lower. repeat split; try lia. now left.
  - exists (date_of now + 1), time_lower.
    change (resolve_day now "tomorrow" (Str.lower "tomorrow") time_lower)
      with (d ← dt_add now (timedelta_days 1); mret (date_of d, time_lower)).
    unfold dt_add.
    assert (Hr : (MINWALL <=? wall now + timedelta_days 1)
                 && (wall now + timedelta_days 1 <=? MAXWALL) = true).
    { destruct Hrep as [H1 H2]. pose proof US_PER_DAY_pos as Hpos.
      unfold date_of in Hmax.
      pose proof (Z.div_mod (wall now) US_PER_DAY) as Hdm.
      pose proof (Z.mod_pos_bound (wall now) US_PER_DAY Hpos) as Hmod.
      unfold timedelta_days, MINWALL, MAXWALL in *.
      apply andb_true_iff; split; apply Z.leb_le; nia. }
    rewrite Hr. simpl. rewrite date_of_next_day.
    repeat split; try lia. now left.
  - exists (date_of now), "evening". repeat split; try lia. now right.
  - repeat (destruct Hday as [<- | Hday];
            [first [ exact (Hweek 0 ltac:(lia)) | exact (Hweek 1 ltac:(lia))
                   | exact (Hweek 2 ltac:(lia)) | exact (Hweek 3 ltac:(lia))
                   | exact (Hweek 4 ltac:(lia)) | exact (Hweek 5 ltac:(lia))
                   | exact (Hweek 6 ltac:(lia)) ]|]).
    contradiction.
Qed.

(** Each time token of the parser resolves to a named period. *)
Lemma resolve_time_token now time time_lower :
  In time_lower time_tokens ->
  exists t, resolve_time now time time_lower = Ok t /\ In t period_times.
Proof.
  unfold time_tokens, period_times. simpl.
  intros [<- | [<- | [<- | [<- | []]]]]; eexists;
    (split; [reflexivity|]); vm_compute; tauto.
Qed.

(** X10. The Criteria Parser and the Temporal Matcher composed: whatever
    the user types, the target datetime built from the parsed day and time
    is aware, falls today or within the seven days ahead, and stands at
    09:00, 14:00 or 19:00; a date or a clock time written in the input
    never reaches the target. *)
Theorem parsed_input_resolves_to_named_period
    (tz : zone) (now : datetime) (user_input : string) :
  representable now ->
  date_of now + 7 <= MAXORDINAL ->
  let day := snd (fst (_parse_user_input now user_input)) in
  let time := snd (_parse_user_input now user_input) in
  let target := _parse_datetime tz now day time in
  date_of now <= date_of target <= date_of now + 7 /\
  In (time_of target) period_times /\
  tzinfo target = Some (utcoffset_at tz (wall target)).
Proof.
  intros Hrep Hmax day time target.
  destruct (parse_user_input_canonical now user_input) as (_ & Hday & Htime).
  fold day in Hday. fold time in Htime.
  destruct (resolve_day_token now day (Str.lower time) Hday Hrep Hmax)
    as (d & tl & Hd & Hrange & Htl).
  assert (Htl' : In tl time_tokens).
  { destruct Htl as [-> | ->]; [|simpl; tauto].
    unfold time_tokens in *. simpl in Htime |- *.
    repeat (destruct Htime as [<- | Htime]; [simpl; tauto|]). contradiction. }
  destruct (resolve_time_token now time tl Htl') as (t & Ht & Hperiod).
  assert (Htr : 0 <= t < US_PER_DAY).
  { unfold period_times in Hperiod. simpl in Hperiod.
    repeat (destruct Hperiod as [<- | Hperiod];
            [vm_compute; split; [discriminate | reflexivity]|]).
    contradiction. }
  unfold target.
  rewrite (parse_datetime_resolved tz now day time d tl t Hd Ht).
  set (offset := Some (utcoffset_at tz (d * US_PER_DAY + t))).
  assert (Hdate : date_of (mk_datetime (d * US_PER_DAY + t) offset) = d)
    by exact (date_of_combine d t Htr).
  assert (Htime' : time_of (mk_datetime (d * US_PER_DAY + t) offset) = t)
    by exact (time_of_combine d t Htr).
  rewrite Hdate, Htime'. repeat split; try lia; assumption.
Qed.

(** A request with a written date and time, on Saturday 2024-07-20 at
    23:00: the target is that Saturday at 19:00. *)
Lemma parsed_input_resolves_witness :
  let target :=
    _parse_datetime America_Montreal clock_saturday_23h
      (snd (fst (_parse_user_input clock_saturday_23h "jazz 2024-08-02 21:30")))
      (snd (_parse_user_input clock_saturday_23h "jazz 2024-08-02 21:30")) in
  date_of clock_saturday_23h <= date_of target <= date_of clock_saturday_23h + 7.
Proof.
  apply (parsed_input_resolves_to_named_period America_Montreal
           clock_saturday_23h "jazz 2024-08-02 21:30").
  - unfold representable. vm_compute. split; discriminate.
  - vm_compute. discriminate.
Defined.

(** X11. [_parse_datetime] never returns a naive datetime: whatever day
    and time it is given, and also when a step of it fails, its result
    carries a UTC offset, the clock being aware. *)
Theorem parse_datetime_always_aware
    (tz : zone) (now : datetime) (day time : string) :
  tzinfo now <> None ->
  tzinfo (_parse_datetime tz now day time) <> None.
Proof.
  intros Hnow. unfold _parse_datetime.
  destruct (resolve_day now day _ _) as [[d tl]|]; simpl; [|assumption].
  destruct (resolve_time now time tl) as [t|]; simpl; [discriminate | assumption].
Qed.

Lemma parse_datetime_always_aware_witness :
  tzinfo (_parse_datetime America_Montreal clock_wednesday_9h "someday" "25:99")
  <> None.
Proof.
  apply (parse_datetime_always_aware America_Montreal clock_wednesday_9h).
  vm_compute. discriminate.
Defined.

Lemma in_list_named_days_false w :
  Str.in_list w named_days = false ->
  Str.in_list w ["today"; "now"] = false /\
  Str.in_list w ["tomorrow"] = false /\
  Str.in_list w ["tonight"] = false /\
  Str.in_list w ["monday"; "mon"] = false /\
  Str.in_list w ["tuesday"; "tue"] = false /\
  Str.in_list w ["wednesday"; "wed"] = false /\
  Str.in_list w ["thursday"; "thu"] = false /\
  Str.in_list w ["friday"; "fri"] = false /\
  Str.in_list w ["saturday"; "sat"] = false /\
  Str.in_list w ["sunday"; "sun"] = false.
Proof.
  unfold named_days, Str.in_list. cbn [existsb]. intros H.
  repeat (apply orb_false_iff in H as [? H]).
  repeat match goal with Hx : String.eqb _ _ = false |- _ => rewrite Hx; clear Hx end.
  repeat split; reflexivity.
Qed.

Lemma in_list_named_times_false w :
  Str.in_list w named_times = false ->
  Str.in_list w ["morning"; "am"] = false /\
  Str.in_list w ["afternoon"; "pm"] = false /\
  Str.in_list w ["evening"; "night"] = false.
Proof.
  unfold named_times, Str.in_list. cbn [existsb]. intros H.
  repeat (apply orb_false_iff in H as [? H]).
  repeat match goal with Hx : String.eqb _ _ = false |- _ => rewrite Hx; clear Hx end.
  repeat split; reflexivity.
Qed.

(** X12. [_parse_datetime] refuses nothing: a day text that is neither a
    named day nor a date [YYYY-MM-DD], with a time text that is neither a
    named period nor a time [HH:MM], resolves to the current wall-clock
    reading, localized in the zone. *)
Theorem parse_datetime_defaults_to_now
    (tz : zone) (now : datetime) (day time : string) (e e' : exn) :
  Str.in_list (Str.lower day) named_days = false ->
  strptime_Ymd day = Raise e ->
  Str.in_list (Str.lower time) named_times = false ->
  strptime_HM time = Raise e' ->
  _parse_datetime tz now day time
  = mk_datetime (wall now) (Some (utcoffset_at tz (wall now))).
Proof.
  intros Hday Hymd Htime Hhm.
  apply in_list_named_days_false in Hday
    as (H1 & H2 & H3 & H4 & H5 & H6 & H7 & H8 & H9 & H10).
  apply in_list_named_times_false in Htime as (T1 & T2 & T3).
  assert (Hwall : date_of now * US_PER_DAY + time_of now = wall now).
  { unfold date_of, time_of.
    pose proof (Z.div_mod (wall now) US_PER_DAY ltac:(discriminate)). lia. }
  rewrite (parse_datetime_resolved tz now day time (date_of now)
             (Str.lower time) (time_of now)).
  - now rewrite Hwall.
  - unfold resolve_day.
    rewrite H1, H2, H3, H4, H5, H6, H7, H8, H9, H10, Hymd. reflexivity.
  - unfold resolve_time. rewrite T1, T2, T3, Hhm. reflexivity.
Qed.

Lemma parse_datetime_defaults_witness :
  _parse_datetime America_Montreal clock_wednesday_9h "someday" "25:99"
  = mk_datetime (wall clock_wednesday_9h)
      (Some (utcoffset_at America_Montreal (wall clock_wednesday_9h))).
Proof.
  apply (parse_datetime_defaults_to_now America_Montreal clock_wednesday_9h
           "someday" "25:99" ValueError ValueError);
    vm_compute; reflexivity.
Defined.

(** ** Matching: failures *)

Lemma category_loop_missing_name category festivals acc :
  (exists f, In f festivals /\ f !! "name" = None) ->
  exists e, category_loop category festivals acc = Raise e.
Proof.
  revert acc. induction festivals as [|f0 rest IH]; intros acc (f & Hin & Hname).
  - contradiction.
  - cbn [category_loop]. destruct (category_matches category f0) as [m|e] eqn:Hm.
    + destruct Hin as [-> | Hin].
      * unfold category_matches, getitem in Hm. rewrite Hname in Hm. discriminate.
      * simpl. apply IH. eauto.
    + simpl. eauto.
Qed.

Lemma criteria_loop_missing_name tz category target festivals acc :
  (exists f, In f festivals /\ f !! "name" = None) ->
  exists e, criteria_loop tz category target festivals acc = Raise e.
Proof.
  revert acc. induction festivals as [|f0 rest IH]; intros acc (f & Hin & Hname).
  - contradiction.
  - cbn [criteria_loop]. destruct (category_matches category f0) as [m|e] eqn:Hm.
    + destruct Hin as [-> | Hin].
      * unfold category_matches, getitem in Hm. rewrite Hname in Hm. discriminate.
      * simpl. apply IH. eauto.
    + simpl. eauto.
Qed.

(** X13. One festival without a [name] key empties the whole answer of
    [get_festivals_by_criteria]: the lookup fails inside the loop, the
    failure is caught around it, and the festivals already matched are
    lost with it. *)
Theorem criteria_matching_missing_name_empties
    (tz : zone) (now : datetime) (festivals : list dict)
    (category day time : string) :
  (exists f, In f festivals /\ f !! "name" = None) ->
  get_festivals_by_criteria tz now festivals category day time = [].
Proof.
  intros Hbad. unfold get_festivals_by_criteria.
  destruct (_ && _).
  - destruct (category_loop_missing_name category festivals [] Hbad) as [e ->].
    reflexivity.
  - destruct (criteria_loop_missing_name tz category
                (_parse_datetime tz now day time) festivals [] Hbad) as [e ->].
    reflexivity.
Qed.

(** The seed list matches [music] twice; followed by a record without a
    name, it matches nothing. *)
Lemma criteria_matching_missing_name_witness :
  get_festivals_by_criteria America_Montreal clock_wednesday_9h
    (_get_fallback_festivals ++ [nameless_festival]) "music" "today" "evening"
  = [].
Proof.
  apply (criteria_matching_missing_name_empties America_Montreal
           clock_wednesday_9h).
  exists nameless_festival. split.
  - apply in_or_app. right. now left.
  - vm_compute. reflexivity.
Defined.

(** ** Containment: a reversed interval *)

(** X14. The order of the two ends of a festival is not checked when it
    is read, and a festival whose end lies before its start contains no
    time at all: [_is_festival_at_time] answers false for every target. *)
Theorem reversed_interval_contains_nothing
    (tz : zone) (f : dict) (target : datetime) (s e : Z) :
  festival_instant tz f "start_date" = Some s ->
  festival_instant tz f "end_date" = Some e ->
  e < s ->
  _is_festival_at_time tz f target = false.
Proof.
  intros Hs He Hlt.
  destruct (_is_festival_at_time tz f target) eqn:Hv; [|reflexivity].
  apply is_festival_at_time_spec in Hv as (s' & e' & Hs' & He' & Hb).
  rewrite Hs in Hs'. rewrite He in He'.
  injection Hs' as <-. injection He' as <-. lia.
Qed.

Lemma reversed_interval_witness :
  _is_festival_at_time America_Montreal reversed_festival clock_2024_06_30_20h
  = false.
Proof.
  apply (reversed_interval_contains_nothing America_Montreal reversed_festival
           clock_2024_06_30_20h
           (ymd2ord 2024 7 7 * US_PER_DAY + 3 * US_PER_HOUR)
           (ymd2ord 2024 6 27 * US_PER_DAY + 22 * US_PER_HOUR));
    vm_compute; reflexivity.
Defined.

(** ** The memory store *)

Lemma slice_last_positive {A} (limit : Z) (l : list A) :
  0 < limit ->
  Memory.slice_last limit l
  = drop (List.length l - Z.to_nat limit) l.
Proof.
  intros Hpos. unfold Memory.slice_last.
  destruct (Z.ltb_spec (- limit) 0); [|lia]. f_equal. lia.
Qed.

(** X15. [recall_conversations] with a positive limit returns the last
    [limit] conversations, or all of them when there are fewer, in their
    order; with the limit 0 the slice [[-0:]] starts at the head and the
    call returns every conversation, not none. *)
Theorem recall_conversations_window (m : Memory.memory_data) (limit : Z) :
  Memory.recall_conversations m 0 = Memory.conversations m /\
  (0 < limit ->
   List.length (Memory.recall_conversations m limit)
   = Nat.min (Z.to_nat limit) (List.length (Memory.conversations m)) /\
   exists older,
     Memory.conversations m
     = (older ++ Memory.recall_conversations m limit)%list).
Proof.
  unfold Memory.recall_conversations. split.
  - destruct (Memory.conversations m); reflexivity.
  - intros Hpos.
    assert (Heq : match Memory.conversations m with
                  | [] => []
                  | _ :: _ => Memory.slice_last limit (Memory.conversations m)
                  end
                  = drop (List.length (Memory.conversations m) - Z.to_nat limit)
                      (Memory.conversations m)).
    { destruct (Memory.conversations m) as [|c l] eqn:Hc; [reflexivity|].
      now apply slice_last_positive. }
    rewrite Heq. split.
    + rewrite length_drop. lia.
    + eexists. symmetry. apply take_drop.
Qed.

Lemma recall_conversations_window_witness :
  List.length (Memory.recall_conversations three_conversations 2) = 2%nat /\
  List.length (Memory.recall_conversations three_conversations 0) = 3%nat.
Proof.
  split.
  - rewrite (proj1 (proj2 (recall_conversations_window three_conversations 2)
                      ltac:(lia))).
    reflexivity.
  - rewrite (proj1 (recall_conversations_window three_conversations 2)).
    reflexivity.
Defined.

(** X16. A conversation just stored is the one [recall_conversations]
    returns with the limit 1, and the last one it returns with any
    positive limit; the conversations stored before it are kept, in
    their order. *)
Theorem store_conversation_recalled
    (generate_id : string -> string) (m : Memory.memory_data)
    (now_iso user_input agent_response : string) (limit : Z) :
  let m' := Memory.store_conversation generate_id m now_iso user_input
              agent_response None in
  let c := Memory.mk_conversation now_iso user_input agent_response []
             (generate_id (String.append user_input agent_response)) in
  Memory.conversations m' = (Memory.conversations m ++ [c])%list /\
  Memory.recall_conversations m' 1 = [c] /\
  (0 < limit ->
   exists before, Memory.recall_conversations m' limit = (before ++ [c])%list).
Proof.
  intros m' c.
  assert (Hconv : Memory.conversations m' = (Memory.conversations m ++ [c])%list)
    by reflexivity.
  assert (Hrecall : forall k, 0 < k ->
            Memory.recall_conversations m' k
            = (drop (List.length (Memory.conversations m ++ [c])
                     - Z.to_nat k) (Memory.conversations m)
               ++ [c])%list).
  { intros k Hk. unfold Memory.recall_conversations. rewrite Hconv.
    destruct (Memory.conversations m ++ [c])%list as [|x l] eqn:Hl.
    { now destruct (Memory.conversations m). }
    rewrite <- Hl, slice_last_positive by exact Hk.
    apply drop_app_le. rewrite length_app. simpl. lia. }
  split; [exact Hconv | split].
  - rewrite (Hrecall 1) by lia. rewrite length_app. simpl.
    replace (List.length (Memory.conversations m) + 1 - Z.to_nat 1)%nat
      with (List.length (Memory.conversations m)) by lia.
    now rewrite drop_all.
  - intros Hpos. eexists. now apply Hrecall.
Qed.

Lemma store_conversation_recalled_witness :
  exists before,
    Memory.recall_conversations
      (Memory.store_conversation id_of three_conversations
         "2024-07-17T09:15:00" "art sunday" "Art Festival" None) 2
    = (before ++ [Memory.mk_conversation "2024-07-17T09:15:00" "art sunday"
                    "Art Festival" [] (id_of "art sundayArt Festival")])%list.
Proof.
  apply (proj2 (proj2 (store_conversation_recalled id_of three_conversations
                         "2024-07-17T09:15:00" "art sunday" "Art Festival" 2))).
  lia.
Defined.

(** X17. A stored preference is read back under its key, the last value
    stored under a key being the one read; storing under one key leaves
    the other keys as they were; and a key never stored reads as the
    default. *)
Theorem user_preference_roundtrip
    (m : Memory.memory_data) (now_iso key : string) (v default : value) :
  Memory.get_user_preference
    (Memory.store_user_preference m now_iso key v) key default = v /\
  (forall other, other <> key ->
     Memory.get_user_preference
       (Memory.store_user_preference m now_iso key v) other default
     = Memory.get_user_preference m other default) /\
  (Memory.user_preferences m !! key = None ->
   Memory.get_user_preference m key default = default).
Proof.
  unfold Memory.get_user_preference, Memory.store_user_preference. simpl.
  split; [|split].
  - now rewrite lookup_insert_eq.
  - intros other Hne. now rewrite lookup_insert_ne.
  - intros ->. reflexivity.
Qed.

Lemma user_preference_roundtrip_witness :
  Memory.get_user_preference (Memory.mk_memory [] [] ∅ []) "category"
    (VStr "music") = VStr "music".
Proof.
  apply (proj2 (proj2 (user_preference_roundtrip (Memory.mk_memory [] [] ∅ [])
                         "2024-07-17T09:00:00" "category" VNone (VStr "music")))).
  reflexivity.
Defined.

Lemma update_first_types t data patterns :
  map Memory.pattern_type (Memory.update_first t data patterns)
  = map Memory.pattern_type patterns.
Proof.
  induction patterns as [|p l IH]; simpl; [reflexivity|].
  destruct (String.eqb (Memory.pattern_type p) t); simpl; [reflexivity|].
  now rewrite IH.
Qed.

Lemma first_of_type_update_same t data patterns :
  frequency_of t (Memory.update_first t data patterns)
  = match first_of_type t patterns with
    | Some p => Memory.pattern_frequency p + 1
    | None => 0
    end.
Proof.
  unfold frequency_of, first_of_type.
  induction patterns as [|p l IH]; simpl; [reflexivity|].
  destruct (String.eqb (Memory.pattern_type p) t) eqn:Hp; simpl.
  - rewrite Hp. reflexivity.
  - rewrite Hp. exact IH.
Qed.

Lemma first_of_type_update_other t t' data patterns :
  t' <> t ->
  first_of_type t' (Memory.update_first t data patterns)
  = first_of_type t' patterns.
Proof.
  intros Hne. unfold first_of_type.
  induction patterns as [|p l IH]; simpl; [reflexivity|].
  destruct (String.eqb_spec (Memory.pattern_type p) t) as [Hp|Hp]; simpl.
  - rewrite Hp. destruct (String.eqb_spec t t') as [->|_]; [congruence|].
    reflexivity.
  - destruct (String.eqb (Memory.pattern_type p) t'); simpl; [reflexivity|].
    exact IH.
Qed.

Lemma filter_type_nil_not_in t patterns :
  List.filter (fun p => String.eqb (Memory.pattern_type p) t) patterns = [] ->
  ~ In t (map Memory.pattern_type patterns).
Proof.
  induction patterns as [|p l IH]; simpl; [tauto|].
  destruct (String.eqb_spec (Memory.pattern_type p) t) as [Hp|Hp];
    [discriminate|].
  intros Hnil [Heq | Hin]; [congruence | now apply IH].
Qed.

(** X18. [learn_pattern] counts: the frequency kept for a pattern type,
    0 when the type was never learned, grows by exactly one at each call
    for that type and stays as it was for every other type; no second
    pattern of a type is ever added, so types that were distinct stay
    distinct. *)
Theorem learn_pattern_counts
    (m : Memory.memory_data) (now_iso t : string) (data : dict) :
  let m' := Memory.learn_pattern m now_iso t data in
  frequency_of t (Memory.learned_patterns m')
  = frequency_of t (Memory.learned_patterns m) + 1 /\
  (forall t', t' <> t ->
     frequency_of t' (Memory.learned_patterns m')
     = frequency_of t' (Memory.learned_patterns m)) /\
  (List.NoDup (map Memory.pattern_type (Memory.learned_patterns m)) ->
   List.NoDup (map Memory.pattern_type (Memory.learned_patterns m'))).
Proof.
  intros m'. unfold m', Memory.learn_pattern.
  cbn [Memory.learned_patterns].
  set (l := Memory.learned_patterns m).
  destruct (List.filter _ l) as [|p ps] eqn:Hf.
  - split; [|split].
    + unfold frequency_of, first_of_type.
      rewrite List.filter_app, Hf. simpl. rewrite String.eqb_refl. reflexivity.
    + intros t' Hne. unfold frequency_of, first_of_type.
      rewrite List.filter_app. simpl.
      destruct (String.eqb_spec t t') as [->|_]; [congruence|].
      now rewrite app_nil_r.
    + intros Hnd. rewrite map_app. simpl.
      apply filter_type_nil_not_in in Hf.
      rewrite <- (rev_involutive (map Memory.pattern_type l ++ [t])%list).
      apply List.NoDup_rev. rewrite rev_app_distr. simpl.
      constructor.
      * intros Hin. apply Hf. now apply in_rev.
      * now apply List.NoDup_rev.
  - split; [|split].
    + rewrite first_of_type_update_same. unfold frequency_of, first_of_type.
      rewrite Hf. reflexivity.
    + intros t' Hne. unfold frequency_of.
      now rewrite first_of_type_update_other.
    + now rewrite update_first_types.
Qed.

Lemma learn_pattern_counts_witness :
  frequency_of "category" (Memory.learned_patterns
     (Memory.learn_pattern
        (Memory.learn_pattern (Memory.mk_memory [] [] ∅ [])
           "2024-07-17T09:00:00" "category" {[ "last" := VStr "music" ]})
        "2024-07-17T09:05:00" "category" {[ "last" := VStr "film" ]}))
  = 2.
Proof.
  rewrite (proj1 (learn_pattern_counts _ _ _ _)).
  rewrite (proj1 (learn_pattern_counts _ _ _ _)).
  reflexivity.
Defined.



(** ** The guided search *)

(** X19. A guided selection survives the trip through the search text of
    [main] and [_parse_user_input], the time [night] apart: the parser
    gives back the category and the day of every selection of the three
    menus, and the time too, except that [night] comes back as [evening]. *)
Theorem guided_selection_parsed (now : datetime) (category day time : string) :
  In category (map snd FestivalUI.categories) ->
  In day (map snd FestivalUI.days) ->
  In time (map snd FestivalUI.times) ->
  _parse_user_input now (FestivalUI.search_input category day time)
  = (category, day, if String.eqb time "night" then "evening" else time).
Proof.
  unfold FestivalUI.categories, FestivalUI.days, FestivalUI.times. simpl.
  intros Hc Hd Ht.
  repeat (destruct Hc as [<- | Hc]; [|]); try contradiction;
    repeat (destruct Hd as [<- | Hd]; [|]); try contradiction;
    repeat (destruct Ht as [<- | Ht]; [|]); try contradiction;
    vm_compute; reflexivity.
Qed.

Lemma guided_selection_night_witness :
  _parse_user_input clock_wednesday_9h
    (FestivalUI.search_input "comedy" "friday" "night")
  = ("comedy", "friday", "evening").
Proof.
  apply (guided_selection_parsed clock_wednesday_9h "comedy" "friday" "night");
    simpl; tauto.
Defined.

(** ** The cultural filter of the scraper *)

Lemma startswith_split p s :
  Str.startswith p s = true <-> exists r, s = String.append p r.
Proof.
  revert s. induction p as [|a p IH]; intros s; simpl.
  - split; [eauto | reflexivity].
  - destruct s as [|b s]; [split; [discriminate | intros [r Hr]; discriminate]|].
    rewrite andb_true_iff, IH. split.
    + intros [Hab [r ->]]. apply Ascii.eqb_eq in Hab as ->. eauto.
    + intros [r [= -> ->]]. rewrite Ascii.eqb_refl. eauto.
Qed.

Lemma is_in_split needle hay :
  Str.is_in needle hay = true <->
  exists before after,
    hay = String.append before (String.append needle after).
Proof.
  induction hay as [|c hay IH].
  - change (Str.is_in needle "") with (Str.startswith needle "" || false).
    rewrite orb_false_r, startswith_split. split.
    + intros [r Hr]. exists "", r. exact Hr.
    + intros ([|b before] & after & H); [eauto | discriminate].
  - change (Str.is_in needle (String c hay))
      with (Str.startswith needle (String c hay) || Str.is_in needle hay).
    rewrite orb_true_iff, startswith_split, IH. split.
    + intros [[r Hr] | (before & after & ->)].
      * exists "", r. exact Hr.
      * exists (String c before), after. reflexivity.
    + intros ([|b before] & after & H).
      * left. eauto.
      * right. injection H as -> ->. eauto.
Qed.

Lemma string_append_assoc a b c :
  String.append (String.append a b) c = String.append a (String.append b c).
Proof.
  induction a as [|x a IH]; [reflexivity|].
  change (String x (String.append (String.append a b) c)
          = String x (String.append a (String.append b c))).
  now rewrite IH.
Qed.

(** A substring of a substring is a substring. *)
Lemma is_in_trans a b c :
  Str.is_in a b = true -> Str.is_in b c = true -> Str.is_in a c = true.
Proof.
  rewrite !is_in_split.
  intros (p1 & s1 & ->) (p2 & s2 & ->).
  exists (String.append p2 p1), (String.append s1 s2).
  now rewrite !string_append_assoc.
Qed.

(** X20. The business keyword [ai] is matched as a substring: every event
    whose name holds the letters [ai], letter case apart, is refused by
    [_is_cultural_event], whatever cultural keywords it holds.  The
    cultural keyword [entertainment] holds these letters itself, so a name
    with it is never cultural. *)
Theorem cultural_event_refuses_ai (event_name : string) :
  (contains_ignoring_case "ai" event_name = true ->
   LiveFestivalScraper._is_cultural_event event_name = false) /\
  (contains_ignoring_case "entertainment" event_name = true ->
   LiveFestivalScraper._is_cultural_event event_name = false).
Proof.
  assert (Hai : contains_ignoring_case "ai" event_name = true ->
                LiveFestivalScraper._is_cultural_event event_name = false).
  { unfold contains_ignoring_case. change (Str.lower "ai") with "ai".
    intros H. unfold LiveFestivalScraper._is_cultural_event.
    cbn zeta. apply andb_false_iff. right. apply negb_false_iff.
    unfold LiveFestivalScraper.business_keywords, Str.any_in. cbn [existsb].
    rewrite H, !orb_true_r. reflexivity. }
  split; [exact Hai|].
  intros H. apply Hai. unfold contains_ignoring_case in *.
  change (Str.lower "ai") with "ai".
  change (Str.lower "entertainment") with "entertainment" in H.
  apply (is_in_trans "ai" "entertainment"); [reflexivity | exact H].
Qed.

Lemma cultural_event_refuses_ai_witness :
  LiveFestivalScraper._is_cultural_event "Jazz Festival Saint-Laurent" = false.
Proof.
  apply (proj1 (cultural_event_refuses_ai "Jazz Festival Saint-Laurent")).
  vm_compute. reflexivity.
Defined.

(** ** The task planner *)

(** X21. The tasks [_create_structured_tasks] builds pass
    [validate_task_dependencies] exactly when the request that asks for an
    analysis also asks for a search, and the request that asks for a
    recommendation also asks for a search and an analysis: the analysis
    and recommendation tasks name tasks that are built only then. *)
Theorem created_tasks_valid_iff (user_input planning_response : string) :
  Planner.validate_task_dependencies
    (Planner._create_structured_tasks user_input planning_response)
  = (negb (asks_analysis user_input) || asks_search user_input)
    && (negb (asks_recommendation user_input)
        || (asks_search user_input && asks_analysis user_input)).
Proof.
  unfold Planner._create_structured_tasks, asks_search, asks_analysis,
    asks_recommendation.
  rewrite (orb_diag (Str.is_in "analyze" (Str.lower user_input))).
  destruct (Str.is_in "search" _ || Str.is_in "find" _),
    (Str.is_in "analyze" _),
    (Str.is_in "recommend" _ || Str.is_in "suggest" _);
    vm_compute; reflexivity.
Qed.

Lemma in_list_false_not_in word keywords :
  Str.in_list word keywords = false -> ~ In word keywords.
Proof.
  unfold Str.in_list. intros Hfalse Hin.
  assert (Htrue : existsb (String.eqb word) keywords = true).
  { apply existsb_exists. exists word. split; [exact Hin|].
    apply String.eqb_refl. }
  congruence.
Qed.

(** X22. [_create_structured_tasks] always builds at least one task and at
    most three, with distinct identifiers, and builds them in priority
    order: [prioritize_tasks] returns them as they are. *)
Theorem created_tasks_prioritized (user_input planning_response : string) :
  let tasks := Planner._create_structured_tasks user_input planning_response in
  (1 <= List.length tasks <= 3)%nat /\
  List.NoDup (map Planner.task_id tasks) /\
  Planner.prioritize_tasks tasks = tasks.
Proof.
  unfold Planner._create_structured_tasks.
  rewrite (orb_diag (Str.is_in "analyze" (Str.lower user_input))).
  destruct (Str.is_in "search" _ || Str.is_in "find" _),
    (Str.is_in "analyze" _),
    (Str.is_in "recommend" _ || Str.is_in "suggest" _);
    cbv zeta; cbn [app Datatypes.length map Planner.task_id];
    (split; [lia|]);
    (split; [|vm_compute; reflexivity]);
    repeat (constructor; [apply in_list_false_not_in; vm_compute; reflexivity|]);
    constructor.
Qed.

Lemma insert_by_key_perm key x l :
  Permutation (Planner.insert_by_key key x l) (x :: l).
Proof.
  induction l as [|y l IH]; simpl; [reflexivity|].
  destruct (key x <? key y); [reflexivity|].
  rewrite IH. apply perm_swap.
Qed.

Lemma insert_by_key_sorted key x l :
  Sorted (fun a b => key a <= key b) l ->
  Sorted (fun a b => key a <= key b) (Planner.insert_by_key key x l).
Proof.
  induction 1 as [|y l Hs IH Hhd]; simpl.
  - repeat constructor.
  - destruct (Z.ltb_spec (key x) (key y)) as [Hlt|Hge].
    + constructor; [now constructor|]. constructor. lia.
    + constructor; [exact IH|].
      destruct l as [|z l]; simpl.
      * constructor. lia.
      * destruct (Z.ltb_spec (key x) (key z)); constructor;
          [lia | now inversion Hhd].
Qed.

Lemma sorted_fold_spec key tasks acc :
  Sorted (fun a b => key a <= key b) acc ->
  Sorted (fun a b => key a <= key b)
    (fold_left (fun acc x => Planner.insert_by_key key x acc) tasks acc) /\
  Permutation (fold_left (fun acc x => Planner.insert_by_key key x acc) tasks acc)
    (acc ++ tasks).
Proof.
  revert acc. induction tasks as [|x tasks IH]; intros acc Hacc; simpl.
  - split; [exact Hacc | now rewrite app_nil_r].
  - destruct (IH (Planner.insert_by_key key x acc)
                (insert_by_key_sorted key x acc Hacc)) as [Hs Hp].
    split; [exact Hs|]. rewrite Hp, insert_by_key_perm.
    apply Permutation_middle.
Qed.

(** X23. [prioritize_tasks] returns the tasks it was given, each as often
    as it came, in the order of their priority numbers, a task without
    priority counting as 999. *)
Theorem prioritize_tasks_sorted_permutation (tasks : list Planner.task) :
  Permutation (Planner.prioritize_tasks tasks) tasks /\
  Sorted (fun a b => Planner.priority_key a <= Planner.priority_key b)
         (Planner.prioritize_tasks tasks).
Proof.
  unfold Planner.prioritize_tasks, Planner.sorted.
  destruct (sorted_fold_spec Planner.priority_key tasks [])
    as [Hs Hp]; [constructor|].
  split; [exact Hp | exact Hs].
Qed.

(** ** Task results in the memory store *)

Lemma startswith_refl s : Str.startswith s s = true.
Proof.
  induction s as [|c s IH]; simpl; [reflexivity|].
  now rewrite Ascii.eqb_refl.
Qed.

Lemma is_in_refl s : Str.is_in s s = true.
Proof. destruct s; simpl; [reflexivity|]. now rewrite Ascii.eqb_refl, startswith_refl. Qed.

(** X24. [recall_task_results] with a keyword returns only records whose
    task description contains the keyword, letter case apart, in the
    order they were stored; the empty keyword filters nothing, like no
    keyword; and a result just stored is recalled by its own description
    with the limit 1. *)
Theorem recall_task_results_by_keyword
    (generate_id : string -> string) (m : Memory.memory_data)
    (keyword : string) (limit : Z) :
  (0 < limit ->
   forall r, In r (Memory.recall_task_results m (Some keyword) limit) ->
             In r (Memory.task_results m) /\
             (keyword <> "" ->
              contains_ignoring_case keyword (Memory.rec_task_description r)
              = true)) /\
  Memory.recall_task_results m (Some "") limit
  = Memory.recall_task_results m None limit /\
  (forall now_iso result,
      keyword <> "" ->
      Memory.recall_task_results
        (Memory.store_task_result generate_id m now_iso keyword result)
        (Some keyword) 1
      = [Memory.mk_task_record now_iso keyword result (generate_id keyword)]).
Proof.
  split; [|split].
  - intros Hpos r. unfold Memory.recall_task_results.
    destruct keyword as [|c k].
    + destruct (Memory.task_results m) as [|x l] eqn:Hl; [contradiction|].
      rewrite slice_last_positive by exact Hpos. intros Hin.
      split; [|congruence].
      apply list_elem_of_In, (subseteq_drop _ (x :: l)), list_elem_of_In in Hin.
      exact Hin.
    + set (p := fun result : Memory.task_record =>
                  Str.is_in (Str.lower (String c k))
                    (Str.lower (Memory.rec_task_description result))).
      destruct (List.filter p (Memory.task_results m)) as [|x l] eqn:Hl;
        [contradiction|].
      rewrite slice_last_positive by exact Hpos. intros Hin.
      apply list_elem_of_In, (subseteq_drop _ (x :: l)), list_elem_of_In in Hin.
      rewrite <- Hl in Hin. apply filter_In in Hin as [Hin Hp].
      split; [exact Hin | intros _; exact Hp].
  - reflexivity.
  - intros now_iso result Hne. unfold Memory.recall_task_results.
    destruct keyword as [|c k]; [congruence|].
    cbn [Memory.store_task_result Memory.task_results].
    set (p := fun result : Memory.task_record =>
                Str.is_in (Str.lower (String c k))
                  (Str.lower (Memory.rec_task_description result))).
    rewrite List.filter_app. cbn [List.filter].
    assert (Hp : p (Memory.mk_task_record now_iso (String c k) result
                      (generate_id (String c k))) = true)
      by apply is_in_refl.
    rewrite Hp.
    set (r := Memory.mk_task_record _ _ _ _).
    destruct (List.filter p (Memory.task_results m) ++ [r])%list
      as [|x l] eqn:Hl.
    { now destruct (List.filter p (Memory.task_results m)). }
    rewrite <- Hl, slice_last_positive by lia.
    rewrite length_app. simpl.
    replace (List.length (List.filter p (Memory.task_results m)) + 1
             - Z.to_nat 1)%nat
      with (List.length (List.filter p (Memory.task_results m))) by lia.
    apply drop_app_length.
Qed.

Lemma recall_task_results_witness :
  Memory.recall_task_results
    (Memory.store_task_result id_of (Memory.mk_memory [] [] ∅ [])
       "2024-07-17T09:00:00" "Find jazz festivals" ∅)
    (Some "Find jazz festivals") 1
  = [Memory.mk_task_record "2024-07-17T09:00:00" "Find jazz festivals" ∅
       (id_of "Find jazz festivals")].
Proof.
  apply (proj2 (proj2 (recall_task_results_by_keyword id_of
                         (Memory.mk_memory [] [] ∅ [])
                         "Find jazz festivals" 1))).
  discriminate.
Defined.

(** ** The seed list over time *)

Lemma start_in_window_lower_bound f now :
  tzinfo now = None ->
  start_in_window f now = Ok true ->
  exists start, start_of f = Some start /\
                wall now - timedelta_days 30 <= wall start.
Proof.
  intros Hnaive. unfold start_in_window, start_of, getitem.
  destruct (f !! "start_date") as [[| |s|]|]; simpl; try discriminate.
  destruct (fromisoformat _) as [start|]; simpl; [|discriminate].
  intros H. exists start. split; [reflexivity|].
  apply bind_Ok_inv in H as (lo & Hlo & H).
  apply bind_Ok_inv in H as (after_lo & Hcmp & H).
  unfold dt_sub, dt_add in Hlo.
  destruct (_ && _) in Hlo; [|discriminate]. injection Hlo as <-.
  unfold dt_le in Hcmp. simpl in Hcmp. rewrite Hnaive in Hcmp.
  destruct (tzinfo start); [discriminate|].
  injection Hcmp as <-.
  destruct (Z.leb_spec (wall now + - timedelta_days 30) (wall start));
    [lia | discriminate].
Qed.

Lemma seed_starts_before_expiry :
  forallb (fun f => match start_of f with
                    | Some start =>
                        wall start + timedelta_days 30 <=? seeds_expiry_wall
                    | None => false
                    end) _get_fallback_festivals = true.
Proof. vm_compute. reflexivity. Qed.

(** X25. The seed list is not checked against the clock: under every
    naive clock later than 2024-09-21 10:00, thirty days after the last
    seed start, the Validity Filter rejects all five seed festivals, and
    [get_ongoing_festivals] still returns them, also when they are all
    that live collection had to filter. *)
Theorem seed_list_expires (now : datetime) :
  tzinfo now = None ->
  seeds_expiry_wall < wall now ->
  validity_filter _get_fallback_festivals now = [] /\
  get_ongoing_festivals (Ok (get_live_festivals [_get_fallback_festivals] now))
  = _get_fallback_festivals.
Proof.
  intros Hnaive Hlate.
  assert (Hempty : validity_filter _get_fallback_festivals now = []);
    [|split; [exact Hempty|];
      unfold get_live_festivals;
      change (concat [_get_fallback_festivals])
        with (_get_fallback_festivals ++ [])%list;
      rewrite app_nil_r, Hempty; reflexivity].
  rewrite validity_filter_filter.
  assert (Hall : forall f, In f _get_fallback_festivals ->
                           _is_valid_festival f now = false).
  { intros f Hf.
    destruct (_is_valid_festival f now) eqn:Hv; [exfalso | reflexivity].
    apply is_valid_festival_true in Hv as (_ & _ & Hw).
    apply (start_in_window_lower_bound f now Hnaive) in Hw
      as (start & Hs & Hlo).
    pose proof (proj1 (forallb_forall _ _) seed_starts_before_expiry f Hf) as Hb.
    cbv beta in Hb. rewrite Hs in Hb. apply Z.leb_le in Hb. lia. }
  revert Hall. generalize _get_fallback_festivals. intros l Hall.
  induction l as [|f l IH]; simpl; [reflexivity|].
  rewrite (Hall f (or_introl eq_refl)). apply IH.
  intros g Hg. apply Hall. now right.
Qed.

Lemma seed_list_expires_witness :
  validity_filter _get_fallback_festivals clock_2025_06_27 = [].
Proof.
  apply (seed_list_expires clock_2025_06_27 eq_refl).
  vm_compute. reflexivity.
Defined.

(** ** Adapters are filtered independently *)

(** X26. The Validity Filter judges each festival on its own: filtering
    what the adapters returned together is filtering each adapter's list
    and joining the results in adapter order.  A festival returned twice is
    kept twice: nothing is deduplicated. *)
Theorem validity_filter_per_adapter
    (adapters : list (list dict)) (now : datetime) (f : dict) :
  validity_filter (concat adapters) now
  = concat (map (fun festivals => validity_filter festivals now) adapters) /\
  (_is_valid_festival f now = true ->
   validity_filter (concat [[f]; [f]]) now = [f; f]).
Proof.
  split.
  - induction adapters as [|a adapters IH]; [reflexivity|].
    cbn [concat map]. rewrite <- IH, !validity_filter_filter.
    apply List.filter_app.
  - intros Hv. rewrite validity_filter_filter. simpl. now rewrite Hv.
Qed.

Lemma validity_filter_duplicates_witness :
  validity_filter
    (concat [[hd ∅ _get_fallback_festivals]; [hd ∅ _get_fallback_festivals]])
    clock_2024_06_27_13h
  = [hd ∅ _get_fallback_festivals; hd ∅ _get_fallback_festivals].
Proof.
  apply (proj2 (validity_filter_per_adapter [] clock_2024_06_27_13h
                  (hd ∅ _get_fallback_festivals))).
  vm_compute. reflexivity.
Defined.
